(** * cloud-nuke, package [config]: the configuration loader and the name filter

    The package reads a YAML file that lists, for the resource categories
    [s3] and [IAMUsers], regular expressions of names to include and to
    exclude, and decides with [ShouldInclude] whether a resource name is to
    be acted upon.

    The Go code relies on three libraries and on the operating system:
    [regexp] (Compile, MatchString), [gopkg.in/yaml.v2] (Unmarshal),
    [path/filepath] and [io/ioutil].  They are interfaces of this
    development: everything proved below holds for every implementation of
    them.  A small concrete implementation ([Fragment], [Fixture]) is given
    to run the code on examples. *)

From Stdlib Require Import String Ascii List Bool Arith.
From Stdlib Require Import Sorting.Permutation.
Import ListNotations.

Local Open Scope string_scope.
Local Open Scope list_scope.

(** ** Go values *)

(** A Go [error] value.  The loader never inspects an error, it hands on
    the one a library returned; the constructors record where it came
    from. *)
Inductive error : Type :=
| os_error (msg : string)
| yaml_error (msg : string)
| syntax_error (Code : string) (Expr : string).

(** A Go result pair [(v, err)] of a library call, of which exactly one
    component is meaningful. *)
Inductive result (A : Type) : Type :=
| Ok (v : A)
| Err (err : error).

Arguments Ok {A} v.
Arguments Err {A} err.

(** ** The libraries *)

(** Package [regexp].  [regexp_zero] is the zero value [regexp.Regexp{}]. *)
Class regexp_package : Type := {
  Regexp : Type;
  regexp_zero : Regexp;
  regexp_Compile : string -> result Regexp;
  MatchString : Regexp -> string -> bool
}.

(** The YAML documents of the shape the package reads:
<<
    <category>:
      include:
        names_regex: [<string>, ...]
      exclude:
        names_regex: [<string>, ...]
>>
    with the categories [s3] and [IAMUsers].  A key that the file leaves
    out is [None]; an entry of [names_regex] is the text of a (non-null)
    scalar, after YAML has removed quotes and escapes. *)
Record yamlFilterRule : Type := {
  key_names_regex : option (list string)
}.

Record yamlResourceType : Type := {
  key_include : option yamlFilterRule;
  key_exclude : option yamlFilterRule
}.

Record yamlDocument : Type := {
  key_s3 : option yamlResourceType;
  key_IAMUsers : option yamlResourceType
}.

(** Package [yaml]: [yaml_parse] reads the bytes of a file into a document
    of that shape (or fails: syntax error, value of the wrong kind), and
    [yaml_Unmarshal_string data] is [yaml.Unmarshal(data, &pattern)] for a
    [var pattern string]: the string that [pattern] holds afterwards. *)
Class yaml_package : Type := {
  yaml_parse : string -> result yamlDocument;
  yaml_Unmarshal_string : string -> result string
}.

(** The file system a call of [GetConfig] runs against. *)
Record OS : Type := {
  filepath_Abs : string -> result string;
  ioutil_ReadFile : string -> result string
}.

(** ** The filter evaluator

    [matchesInclude], [matchesExclude] and [ShouldInclude] of the package;
    a slice [[]*regexp.Regexp] is a list. *)
Section Evaluator.
Context {R : regexp_package}.

Fixpoint matchesInclude (name : string) (includeREs : list Regexp) : bool :=
  match includeREs with
  | [] => false
  | re :: includeREs' =>
      if MatchString re name then true else matchesInclude name includeREs'
  end.

Fixpoint matchesExclude (name : string) (excludeREs : list Regexp) : bool :=
  match excludeREs with
  | [] => true
  | re :: excludeREs' =>
      if MatchString re name then false else matchesExclude name excludeREs'
  end.

Definition ShouldInclude (name : string)
    (includeREs : list Regexp) (excludeNamesREs : list Regexp) : bool :=
  let shouldInclude := false in
  if (0 <? length includeREs)%nat then
    if matchesInclude name includeREs
    then matchesExclude name excludeNamesREs
    else shouldInclude
  else if (0 <? length excludeNamesREs)%nat then
    matchesExclude name excludeNamesREs
  else
    true.

(** The name matches at least one pattern of the list. *)
Definition matches_some (name : string) (res : list Regexp) : Prop :=
  exists re, In re res /\ MatchString re name = true.

(** The name matches no pattern of the list. *)
Definition matches_none (name : string) (res : list Regexp) : Prop :=
  forall re, In re res -> MatchString re name = false.
End Evaluator.

(** ** The loader of [config/config.go]: raw strings first, compiled after *)
Module RawThenCompiled.

(** The types the YAML file is unmarshalled into. *)
Module Raw.

Definition rawNamesRE : Type := list string.

Record rawFilterRule : Type := {
  NamesRE : rawNamesRE
}.

Record rawResourceType : Type := {
  IncludeRule : rawFilterRule;
  ExcludeRule : rawFilterRule
}.

Record RawConfig : Type := {
  S3 : rawResourceType;
  IAMUsers : rawResourceType
}.

(** The zero value [RawConfig{}]: every slice is nil. *)
Definition rawFilterRule_zero : rawFilterRule := {| NamesRE := [] |}.

Definition rawResourceType_zero : rawResourceType :=
  {| IncludeRule := rawFilterRule_zero; ExcludeRule := rawFilterRule_zero |}.

Definition RawConfig_zero : RawConfig :=
  {| S3 := rawResourceType_zero; IAMUsers := rawResourceType_zero |}.

End Raw.

Section Loader.
Context {R : regexp_package} {Y : yaml_package}.

Definition compiledNamesRE : Type := list Regexp.

Record FilterRule : Type := {
  NamesRE : compiledNamesRE
}.

Record ResourceType : Type := {
  IncludeRule : FilterRule;
  ExcludeRule : FilterRule
}.

Record Config : Type := {
  S3 : ResourceType;
  IAMUsers : ResourceType
}.

(** The zero value of [var configObj Config]. *)
Definition FilterRule_zero : FilterRule := {| NamesRE := [] |}.

Definition ResourceType_zero : ResourceType :=
  {| IncludeRule := FilterRule_zero; ExcludeRule := FilterRule_zero |}.

Definition Config_zero : Config :=
  {| S3 := ResourceType_zero; IAMUsers := ResourceType_zero |}.

(** A pointer [*compiledNamesRE] into [configObj]: how to read the slice it
    points to and how to assign to it. *)
Record pointer : Type := {
  deref : Config -> compiledNamesRE;
  assign : compiledNamesRE -> Config -> Config
}.

(** [&configObj.S3.IncludeRule.NamesRE] *)
Definition addr_S3_IncludeRule_NamesRE : pointer :=
  {| deref := fun configObj => NamesRE (IncludeRule (S3 configObj));
     assign := fun v configObj =>
       {| S3 := {| IncludeRule := {| NamesRE := v |};
                   ExcludeRule := ExcludeRule (S3 configObj) |};
          IAMUsers := IAMUsers configObj |} |}.

(** [&configObj.S3.ExcludeRule.NamesRE] *)
Definition addr_S3_ExcludeRule_NamesRE : pointer :=
  {| deref := fun configObj => NamesRE (ExcludeRule (S3 configObj));
     assign := fun v configObj =>
       {| S3 := {| IncludeRule := IncludeRule (S3 configObj);
                   ExcludeRule := {| NamesRE := v |} |};
          IAMUsers := IAMUsers configObj |} |}.

(** [&configObj.IAMUsers.IncludeRule.NamesRE] *)
Definition addr_IAMUsers_IncludeRule_NamesRE : pointer :=
  {| deref := fun configObj => NamesRE (IncludeRule (IAMUsers configObj));
     assign := fun v configObj =>
       {| S3 := S3 configObj;
          IAMUsers := {| IncludeRule := {| NamesRE := v |};
                         ExcludeRule := ExcludeRule (IAMUsers configObj) |} |} |}.

(** [&configObj.IAMUsers.ExcludeRule.NamesRE] *)
Definition addr_IAMUsers_ExcludeRule_NamesRE : pointer :=
  {| deref := fun configObj => NamesRE (ExcludeRule (IAMUsers configObj));
     assign := fun v configObj =>
       {| S3 := S3 configObj;
          IAMUsers := {| IncludeRule := IncludeRule (IAMUsers configObj);
                         ExcludeRule := {| NamesRE := v |} |} |} |}.

Record association : Type := {
  CompiledREs : pointer;
  RawREs : Raw.rawNamesRE
}.

(** [appendRegex]: the memory it writes to through [configNamesRE] is
    [configObj], which is passed in and returned; the second component is
    the returned [error] ([None] is nil).  When a pattern fails, the
    patterns appended before it stay in [configObj]. *)
Fixpoint appendRegex (configNamesRE : pointer) (patterns : Raw.rawNamesRE)
    (configObj : Config) : Config * option error :=
  match patterns with
  | [] => (configObj, None)
  | pattern :: patterns' =>
      match regexp_Compile pattern with
      | Err err => (configObj, Some err)
      | Ok re =>
          appendRegex configNamesRE patterns'
            (assign configNamesRE (deref configNamesRE configObj ++ [re]) configObj)
      end
  end.

(** [yaml.Unmarshal(yamlFile, &rawConfig)]: a key of the document is
    decoded into the field whose tag names it; a field whose key is left
    out keeps the value it had. *)
Definition decode_rawFilterRule (n : yamlFilterRule)
    (out : Raw.rawFilterRule) : Raw.rawFilterRule :=
  match key_names_regex n with
  | Some items => {| Raw.NamesRE := items |}
  | None => out
  end.

Definition decode_rawResourceType (n : yamlResourceType)
    (out : Raw.rawResourceType) : Raw.rawResourceType :=
  {| Raw.IncludeRule :=
       match key_include n with
       | Some r => decode_rawFilterRule r (Raw.IncludeRule out)
       | None => Raw.IncludeRule out
       end;
     Raw.ExcludeRule :=
       match key_exclude n with
       | Some r => decode_rawFilterRule r (Raw.ExcludeRule out)
       | None => Raw.ExcludeRule out
       end |}.

Definition decode_RawConfig (n : yamlDocument)
    (out : Raw.RawConfig) : Raw.RawConfig :=
  {| Raw.S3 :=
       match key_s3 n with
       | Some r => decode_rawResourceType r (Raw.S3 out)
       | None => Raw.S3 out
       end;
     Raw.IAMUsers :=
       match key_IAMUsers n with
       | Some r => decode_rawResourceType r (Raw.IAMUsers out)
       | None => Raw.IAMUsers out
       end |}.

Definition yaml_Unmarshal (yamlFile : string) (out : Raw.RawConfig)
    : Raw.RawConfig * option error :=
  match yaml_parse yamlFile with
  | Err err => (out, Some err)
  | Ok n => (decode_RawConfig n out, None)
  end.

(** The loop [for _, association := range associations] of [GetConfig],
    with its two exits. *)
Fixpoint range_associations (associations : list association)
    (configObj : Config) : option Config * option error :=
  match associations with
  | [] => (Some configObj, None)
  | association :: associations' =>
      match appendRegex (CompiledREs association) (RawREs association) configObj with
      | (_, Some err) => (None, Some err)
      | (configObj', None) => range_associations associations' configObj'
      end
  end.

(** [GetConfig]: the pair of a [*Config] and an [error] that it returns;
    [None] is nil. *)
Definition GetConfig (os : OS) (filePath : string) : option Config * option error :=
  let configObj := Config_zero in
  match filepath_Abs os filePath with
  | Err err => (None, Some err)
  | Ok absolutePath =>
      match ioutil_ReadFile os absolutePath with
      | Err err => (None, Some err)
      | Ok yamlFile =>
          match yaml_Unmarshal yamlFile Raw.RawConfig_zero with
          | (_, Some err) => (None, Some err)
          | (rawConfig, None) =>
              let associations :=
                [ {| CompiledREs := addr_S3_IncludeRule_NamesRE;
                     RawREs := Raw.NamesRE (Raw.IncludeRule (Raw.S3 rawConfig)) |};
                  {| CompiledREs := addr_S3_ExcludeRule_NamesRE;
                     RawREs := Raw.NamesRE (Raw.ExcludeRule (Raw.S3 rawConfig)) |};
                  {| CompiledREs := addr_IAMUsers_IncludeRule_NamesRE;
                     RawREs := Raw.NamesRE (Raw.IncludeRule (Raw.IAMUsers rawConfig)) |};
                  {| CompiledREs := addr_IAMUsers_ExcludeRule_NamesRE;
                     RawREs := Raw.NamesRE (Raw.ExcludeRule (Raw.IAMUsers rawConfig)) |} ] in
              range_associations associations configObj
          end
      end
  end.

End Loader.
End RawThenCompiled.

(** ** The loader with the four calls written out

    The [GetConfig] that calls [appendRegex] once per slot instead of
    looping over associations.  Its types and its [appendRegex] are those
    of [config/config.go], but for the names of the two slice types, and
    are shared with it here. *)
Module Unrolled.
Section Loader.
Context {R : regexp_package} {Y : yaml_package}.

Definition GetConfig (os : OS) (filePath : string)
    : option RawThenCompiled.Config * option error :=
  let configObj := RawThenCompiled.Config_zero in
  match filepath_Abs os filePath with
  | Err err => (None, Some err)
  | Ok absolutePath =>
  match ioutil_ReadFile os absolutePath with
  | Err err => (None, Some err)
  | Ok yamlFile =>
  match RawThenCompiled.yaml_Unmarshal yamlFile RawThenCompiled.Raw.RawConfig_zero with
  | (_, Some err) => (None, Some err)
  | (rawConfig, None) =>
  match RawThenCompiled.appendRegex RawThenCompiled.addr_S3_IncludeRule_NamesRE
          (RawThenCompiled.Raw.NamesRE
             (RawThenCompiled.Raw.IncludeRule (RawThenCompiled.Raw.S3 rawConfig)))
          configObj with
  | (_, Some err) => (None, Some err)
  | (configObj, None) =>
  match RawThenCompiled.appendRegex RawThenCompiled.addr_S3_ExcludeRule_NamesRE
          (RawThenCompiled.Raw.NamesRE
             (RawThenCompiled.Raw.ExcludeRule (RawThenCompiled.Raw.S3 rawConfig)))
          configObj with
  | (_, Some err) => (None, Some err)
  | (configObj, None) =>
  match RawThenCompiled.appendRegex RawThenCompiled.addr_IAMUsers_IncludeRule_NamesRE
          (RawThenCompiled.Raw.NamesRE
             (RawThenCompiled.Raw.IncludeRule (RawThenCompiled.Raw.IAMUsers rawConfig)))
          configObj with
  | (_, Some err) => (None, Some err)
  | (configObj, None) =>
  match RawThenCompiled.appendRegex RawThenCompiled.addr_IAMUsers_ExcludeRule_NamesRE
          (RawThenCompiled.Raw.NamesRE
             (RawThenCompiled.Raw.ExcludeRule (RawThenCompiled.Raw.IAMUsers rawConfig)))
          configObj with
  | (_, Some err) => (None, Some err)
  | (configObj, None) => (Some configObj, None)
  end end end end end end end.

End Loader.
End Unrolled.

(** ** The loader that compiles while unmarshalling

    The other [GetConfig] of the package: [Config] is unmarshalled
    directly, and yaml calls [Expression.UnmarshalText] on every entry of
    a [names_regex] list. *)
Module CompiledInPlace.
Section Loader.
Context {R : regexp_package} {Y : yaml_package}.

Record Expression : Type := {
  RE : Regexp
}.

Record FilterRule : Type := {
  NamesRE : list Expression
}.

Record ResourceType : Type := {
  IncludeRule : FilterRule;
  ExcludeRule : FilterRule
}.

Record Config : Type := {
  S3 : ResourceType;
  IAMUsers : ResourceType
}.

Definition Expression_zero : Expression := {| RE := regexp_zero |}.

Definition FilterRule_zero : FilterRule := {| NamesRE := [] |}.

Definition ResourceType_zero : ResourceType :=
  {| IncludeRule := FilterRule_zero; ExcludeRule := FilterRule_zero |}.

Definition Config_zero : Config :=
  {| S3 := ResourceType_zero; IAMUsers := ResourceType_zero |}.

(** [Expression.UnmarshalText]: the receiver is passed in and returned. *)
Definition UnmarshalText (expression : Expression) (data : string)
    : Expression * option error :=
  match yaml_Unmarshal_string data with
  | Err err => (expression, Some err)
  | Ok pattern =>
      match regexp_Compile pattern with
      | Err err => (expression, Some err)
      | Ok re => ({| RE := re |}, None)
      end
  end.

(** [yaml.Unmarshal(yamlFile, &configObj)].  For every entry of a
    [names_regex] sequence yaml makes a new [Expression] and calls its
    [UnmarshalText] on the text of the entry; an error that
    [UnmarshalText] returns ends the decoding and is the error of
    [Unmarshal].  What the decoder has written into [out] before a failure
    is not kept here: [GetConfig] returns nil then. *)
Fixpoint decode_Expressions (items : list string) : result (list Expression) :=
  match items with
  | [] => Ok []
  | item :: items' =>
      match UnmarshalText Expression_zero item with
      | (_, Some err) => Err err
      | (e, None) =>
          match decode_Expressions items' with
          | Err err => Err err
          | Ok es => Ok (e :: es)
          end
      end
  end.

Definition decode_FilterRule (n : option yamlFilterRule) (out : FilterRule)
    : result FilterRule :=
  match n with
  | None => Ok out
  | Some r =>
      match key_names_regex r with
      | None => Ok out
      | Some items =>
          match decode_Expressions items with
          | Err err => Err err
          | Ok es => Ok {| NamesRE := es |}
          end
      end
  end.

Definition decode_ResourceType (n : option yamlResourceType) (out : ResourceType)
    : result ResourceType :=
  match n with
  | None => Ok out
  | Some r =>
      match decode_FilterRule (key_include r) (IncludeRule out) with
      | Err err => Err err
      | Ok inc =>
          match decode_FilterRule (key_exclude r) (ExcludeRule out) with
          | Err err => Err err
          | Ok exc => Ok {| IncludeRule := inc; ExcludeRule := exc |}
          end
      end
  end.

Definition decode_Config (n : yamlDocument) (out : Config) : result Config :=
  match decode_ResourceType (key_s3 n) (S3 out) with
  | Err err => Err err
  | Ok r1 =>
      match decode_ResourceType (key_IAMUsers n) (IAMUsers out) with
      | Err err => Err err
      | Ok r2 => Ok {| S3 := r1; IAMUsers := r2 |}
      end
  end.

Definition yaml_Unmarshal (yamlFile : string) (out : Config) : Config * option error :=
  match yaml_parse yamlFile with
  | Err err => (out, Some err)
  | Ok n =>
      match decode_Config n out with
      | Err err => (out, Some err)
      | Ok c => (c, None)
      end
  end.

Definition GetConfig (os : OS) (filePath : string) : option Config * option error :=
  let configObj := Config_zero in
  match filepath_Abs os filePath with
  | Err err => (None, Some err)
  | Ok absolutePath =>
      match ioutil_ReadFile os absolutePath with
      | Err err => (None, Some err)
      | Ok yamlFile =>
          match yaml_Unmarshal yamlFile configObj with
          | (_, Some err) => (None, Some err)
          | (configObj', None) => (Some configObj', None)
          end
      end
  end.

(** The slice of [&expression.RE] for the expressions of a rule, which is
    what a caller hands to [ShouldInclude]. *)
Definition regexps (rule : FilterRule) : list Regexp := map RE (NamesRE rule).

End Loader.
End CompiledInPlace.

(** ** Vocabulary of the statements *)

(** The two resource categories and the two rules of each: together the
    four rule slots of a configuration. *)
Inductive category : Type := s3_buckets | iam_users.

Inductive direction : Type := include | exclude.

Definition slots : list (category * direction) :=
  [ (s3_buckets, include); (s3_buckets, exclude); (iam_users, include); (iam_users, exclude) ].

(** The value of the key of a category in the document, of the key of a
    direction under a category, and of [names_regex] under a direction;
    [None] when the key is left out (or a key above it is). *)
Definition category_key (c : category) (n : yamlDocument)
    : option yamlResourceType :=
  match c with
  | s3_buckets => key_s3 n
  | iam_users => key_IAMUsers n
  end.

Definition direction_key (d : direction) (r : option yamlResourceType)
    : option yamlFilterRule :=
  match r with
  | None => None
  | Some r =>
      match d with
      | include => key_include r
      | exclude => key_exclude r
      end
  end.

Definition rule_items (f : option yamlFilterRule) : option (list string) :=
  match f with
  | None => None
  | Some f => key_names_regex f
  end.

Definition rule_patterns (f : option yamlFilterRule) : list string :=
  match rule_items f with
  | Some items => items
  | None => []
  end.

(** The entries the document lists for a slot; [None] when the category,
    its [include] or [exclude] section, or the [names_regex] key is left
    out. *)
Definition slot_items (c : category) (d : direction) (n : yamlDocument)
    : option (list string) :=
  rule_items (direction_key d (category_key c n)).

Definition omitted (c : category) (d : direction) (n : yamlDocument) : Prop :=
  slot_items c d n = None.

Definition slot_patterns (c : category) (d : direction) (n : yamlDocument)
    : list string :=
  rule_patterns (direction_key d (category_key c n)).

(** Every pattern of the file, slot after slot. *)
Definition document_patterns (n : yamlDocument) : list string :=
  slot_patterns s3_buckets include n ++ slot_patterns s3_buckets exclude n ++
  slot_patterns iam_users include n ++ slot_patterns iam_users exclude n.

Section Vocabulary.
Context {R : regexp_package} {Y : yaml_package}.

Definition compiles (pattern : string) : Prop :=
  exists re, regexp_Compile pattern = Ok re.

(** All the patterns compiled in order, or the error of the first one that
    does not compile. *)
Fixpoint compile_all (patterns : list string) : result (list Regexp) :=
  match patterns with
  | [] => Ok []
  | pattern :: patterns' =>
      match regexp_Compile pattern with
      | Err err => Err err
      | Ok re =>
          match compile_all patterns' with
          | Err err => Err err
          | Ok res => Ok (re :: res)
          end
      end
  end.

(** The configuration of a document: its four slots compiled one after
    the other, or the error of the first pattern that does not compile. *)
Definition compile_slots (n : yamlDocument) : result RawThenCompiled.Config :=
  match compile_all (slot_patterns s3_buckets include n) with
  | Err err => Err err
  | Ok si =>
  match compile_all (slot_patterns s3_buckets exclude n) with
  | Err err => Err err
  | Ok se =>
  match compile_all (slot_patterns iam_users include n) with
  | Err err => Err err
  | Ok ui =>
  match compile_all (slot_patterns iam_users exclude n) with
  | Err err => Err err
  | Ok ue =>
      Ok {| RawThenCompiled.S3 :=
              {| RawThenCompiled.IncludeRule := {| RawThenCompiled.NamesRE := si |};
                 RawThenCompiled.ExcludeRule := {| RawThenCompiled.NamesRE := se |} |};
            RawThenCompiled.IAMUsers :=
              {| RawThenCompiled.IncludeRule := {| RawThenCompiled.NamesRE := ui |};
                 RawThenCompiled.ExcludeRule := {| RawThenCompiled.NamesRE := ue |} |} |}
  end end end end.

(** A pointer reads what was assigned through it, and assigning what it
    reads changes nothing. *)
Definition lawful (p : RawThenCompiled.pointer) : Prop :=
  (forall v configObj,
     RawThenCompiled.deref p (RawThenCompiled.assign p v configObj) = v)
  /\ (forall v w configObj,
        RawThenCompiled.assign p v (RawThenCompiled.assign p w configObj)
        = RawThenCompiled.assign p v configObj)
  /\ (forall configObj,
        RawThenCompiled.assign p (RawThenCompiled.deref p configObj) configObj
        = configObj).

(** The compiled patterns of a slot of a configuration. *)
Definition compiled (configObj : RawThenCompiled.Config)
    (c : category) (d : direction) : list Regexp :=
  let r := match c with
           | s3_buckets => RawThenCompiled.S3 configObj
           | iam_users => RawThenCompiled.IAMUsers configObj
           end in
  RawThenCompiled.NamesRE
    (match d with
     | include => RawThenCompiled.IncludeRule r
     | exclude => RawThenCompiled.ExcludeRule r
     end).

(** The inclusion decision for a name of a category. *)
Definition decision (configObj : RawThenCompiled.Config)
    (c : category) (name : string) : bool :=
  ShouldInclude name (compiled configObj c include) (compiled configObj c exclude).

Definition compiled_in_place (configObj : CompiledInPlace.Config)
    (c : category) (d : direction) : list Regexp :=
  let r := match c with
           | s3_buckets => CompiledInPlace.S3 configObj
           | iam_users => CompiledInPlace.IAMUsers configObj
           end in
  CompiledInPlace.regexps
    (match d with
     | include => CompiledInPlace.IncludeRule r
     | exclude => CompiledInPlace.ExcludeRule r
     end).

Definition decision_in_place (configObj : CompiledInPlace.Config)
    (c : category) (name : string) : bool :=
  ShouldInclude name (compiled_in_place configObj c include)
                     (compiled_in_place configObj c exclude).





(** The two loaders agree on a file: both return an error and no
    configuration, or both return a configuration and no error, and the
    two configurations decide every name of every category alike. *)
Definition loaders_agree
    (a : option RawThenCompiled.Config * option error)
    (b : option CompiledInPlace.Config * option error) : Prop :=
  match a, b with
  | (None, Some _), (None, Some _) => True
  | (Some ca, None), (Some cb, None) =>
      forall c name, decision ca c name = decision_in_place cb c name
  | _, _ => False
  end.

(** The pointer that [GetConfig] takes for a slot. *)
Definition address (c : category) (d : direction) : RawThenCompiled.pointer :=
  match c, d with
  | s3_buckets, include => RawThenCompiled.addr_S3_IncludeRule_NamesRE
  | s3_buckets, exclude => RawThenCompiled.addr_S3_ExcludeRule_NamesRE
  | iam_users, include => RawThenCompiled.addr_IAMUsers_IncludeRule_NamesRE
  | iam_users, exclude => RawThenCompiled.addr_IAMUsers_ExcludeRule_NamesRE
  end.

(** [re] is what the pattern compiles to. *)
Definition compiled_from (pattern : string) (re : Regexp) : Prop :=
  regexp_Compile pattern = Ok re.

(** [re] is what [UnmarshalText] makes of the text of an entry: the text
    is read as a YAML document and the string so obtained is compiled. *)
Definition unmarshalled_from (item : string) (re : Regexp) : Prop :=
  exists pattern,
    yaml_Unmarshal_string item = Ok pattern /\ regexp_Compile pattern = Ok re.

End Vocabulary.

(** ** A regexp engine for a fragment of the syntax

    An implementation of [regexp_package] to run the code on examples.  It
    reads the patterns made of an optional [^] in front, literal
    characters and one-range classes such as [[a-z]], and an optional [$]
    at the end, with the meaning they have in Go: an unanchored search,
    [^] the beginning and [$] the end of the text.  Every other pattern is
    refused: one that starts with a repetition operator as Go refuses it,
    the rest as outside the fragment. *)
Module Fragment.

Inductive atom : Type :=
| Lit (c : ascii)
| Range (lo hi : ascii).

Record prog : Type := {
  bol : bool;
  atoms : list atom;
  eol : bool
}.

Definition is_meta (c : ascii) : bool :=
  existsb (Ascii.eqb c)
    (list_ascii_of_string "\.+*?()|[]{}^$").

Definition is_repetition (c : ascii) : bool :=
  existsb (Ascii.eqb c) (list_ascii_of_string "*+?").

Fixpoint parse_atoms (s : list ascii) : option (list atom * bool) :=
  match s with
  | [] => Some ([], false)
  | c :: rest =>
      if Ascii.eqb c "$" then
        match rest with
        | [] => Some ([], true)
        | _ :: _ => None
        end
      else if Ascii.eqb c "[" then
        match rest with
        | lo :: dash :: hi :: close :: rest' =>
            if Ascii.eqb dash "-" && Ascii.eqb close "]"
               && negb (is_meta lo) && negb (is_meta hi)
               && (nat_of_ascii lo <=? nat_of_ascii hi)%nat
            then
              match parse_atoms rest' with
              | Some (l, e) => Some (Range lo hi :: l, e)
              | None => None
              end
            else None
        | _ => None
        end
      else if is_meta c then None
      else
        match parse_atoms rest with
        | Some (l, e) => Some (Lit c :: l, e)
        | None => None
        end
  end.

Definition Compile (pattern : string) : result prog :=
  let s := list_ascii_of_string pattern in
  let anchored := match s with c :: _ => Ascii.eqb c "^" | [] => false end in
  let body := if anchored then tl s else s in
  match body with
  | c :: _ =>
      if is_repetition c then
        Err (syntax_error "missing argument to repetition operator" (String c ""))
      else
        match parse_atoms body with
        | Some (l, e) => Ok {| bol := anchored; atoms := l; eol := e |}
        | None => Err (syntax_error "outside the fragment" pattern)
        end
  | [] => Ok {| bol := anchored; atoms := []; eol := false |}
  end.

Definition atom_match (a : atom) (c : ascii) : bool :=
  match a with
  | Lit x => Ascii.eqb x c
  | Range lo hi =>
      (nat_of_ascii lo <=? nat_of_ascii c)%nat && (nat_of_ascii c <=? nat_of_ascii hi)%nat
  end.

(** The atoms match a prefix of the text (the whole text when [e]). *)
Fixpoint match_here (l : list atom) (e : bool) (text : list ascii) : bool :=
  match l with
  | [] => if e then match text with [] => true | _ :: _ => false end else true
  | a :: l' =>
      match text with
      | [] => false
      | c :: text' => atom_match a c && match_here l' e text'
      end
  end.

(** The atoms match somewhere in the text. *)
Fixpoint search (l : list atom) (e : bool) (text : list ascii) : bool :=
  match_here l e text ||
  match text with
  | [] => false
  | _ :: text' => search l e text'
  end.

Definition Match (re : prog) (name : string) : bool :=
  let text := list_ascii_of_string name in
  if bol re then match_here (atoms re) (eol re) text
  else search (atoms re) (eol re) text.

#[export] Instance engine : regexp_package := {|
  Regexp := prog;
  regexp_zero := {| bol := false; atoms := []; eol := false |};
  regexp_Compile := Compile;
  MatchString := Match
|}.

End Fragment.

(** ** Files to run the loaders on *)
Module Fixture.

(** The file of the example of the specification: buckets named [prod-]
    something except the temporary ones, and every user but the test
    users. *)
Definition prod_yaml : string :=
"s3:
  include:
    names_regex:
      - '^prod-'
  exclude:
    names_regex:
      - '-tmp$'
IAMUsers:
  exclude:
    names_regex:
      - '^test-'
".

Definition prod_document : yamlDocument :=
  {| key_s3 := Some
       {| key_include := Some {| key_names_regex := Some ["^prod-"] |};
          key_exclude := Some {| key_names_regex := Some ["-tmp$"] |} |};
     key_IAMUsers := Some
       {| key_include := None;
          key_exclude := Some {| key_names_regex := Some ["^test-"] |} |} |}.

(** A file whose second slot holds a string that is no regular
    expression. *)
Definition bad_yaml : string :=
"s3:
  include:
    names_regex:
      - '^prod-'
  exclude:
    names_regex:
      - '*tmp'
".

Definition bad_document : yamlDocument :=
  {| key_s3 := Some
       {| key_include := Some {| key_names_regex := Some ["^prod-"] |};
          key_exclude := Some {| key_names_regex := Some ["*tmp"] |} |};
     key_IAMUsers := None |}.

(** A file with a character class. *)
Definition class_yaml : string :=
"s3:
  include:
    names_regex:
      - '[a-z]'
".

Definition class_document : yamlDocument :=
  {| key_s3 := Some
       {| key_include := Some {| key_names_regex := Some ["[a-z]"] |};
          key_exclude := None |};
     key_IAMUsers := None |}.

(** [yaml_parse] on these three files. *)
Definition parse (yamlFile : string) : result yamlDocument :=
  if String.eqb yamlFile prod_yaml then Ok prod_document
  else if String.eqb yamlFile bad_yaml then Ok bad_document
  else if String.eqb yamlFile class_yaml then Ok class_document
  else Err (yaml_error "not a file of the fixture").

Definition is_alnum (c : ascii) : bool :=
  let n := nat_of_ascii c in
  ((48 <=? n) && (n <=? 57) || (65 <=? n) && (n <=? 90) || (97 <=? n) && (n <=? 122))%nat.

Definition is_plain (c : ascii) : bool :=
  is_alnum c || existsb (Ascii.eqb c) (list_ascii_of_string "^$_-").

(** [yaml.Unmarshal(data, &pattern)] where YAML leaves no doubt.  A text
    that starts with [[] is a flow sequence, which is no string, and one
    that starts with [*] is an alias of an anchor that nothing defines:
    errors.
    The null scalars leave [pattern] at its zero value.  A text of
    letters, digits, [^], [$], [_] and [-] that starts with a letter, a
    digit or [^], or with [-] and then a letter or a digit, is a plain
    scalar and is its own value.  Other texts are not covered by the
    fixture, which reports them as errors. *)
Definition unmarshal_string (data : string) : result string :=
  if existsb (String.eqb data) [""; "~"; "null"; "Null"; "NULL"] then Ok ""
  else
    match list_ascii_of_string data with
    | [] => Ok ""
    | c :: rest =>
        if Ascii.eqb c "[" then
          Err (yaml_error "cannot unmarshal !!seq into string")
        else if Ascii.eqb c "*" then
          Err (yaml_error "unknown anchor referenced")
        else if (is_alnum c || Ascii.eqb c "^"
                 || Ascii.eqb c "-" && match rest with c' :: _ => is_alnum c' | [] => false end)
                && forallb is_plain rest
        then Ok data
        else Err (yaml_error "not covered by the fixture")
    end.

#[export] Instance yaml : yaml_package := {|
  yaml_parse := parse;
  yaml_Unmarshal_string := unmarshal_string
|}.

(** A file system: the working directory is [/work], which holds
    [prod.yaml], a copy of it, [bad.yaml] and [class.yaml]. *)
Definition Abs (path : string) : result string :=
  match path with
  | String "/" _ => Ok path
  | _ => Ok (String.append "/work/" path)
  end.

Definition ReadFile (path : string) : result string :=
  if String.eqb path "/work/prod.yaml" then Ok prod_yaml
  else if String.eqb path "/work/copy/prod.yaml" then Ok prod_yaml
  else if String.eqb path "/work/bad.yaml" then Ok bad_yaml
  else if String.eqb path "/work/class.yaml" then Ok class_yaml
  else Err (os_error "no such file or directory").

Definition os : OS := {| filepath_Abs := Abs; ioutil_ReadFile := ReadFile |}.

(** The compiled patterns of [prod.yaml]. *)
Definition re_prod : @Regexp Fragment.engine :=
  {| Fragment.bol := true;
     Fragment.atoms := map Fragment.Lit (list_ascii_of_string "prod-");
     Fragment.eol := false |}.

Definition re_tmp : @Regexp Fragment.engine :=
  {| Fragment.bol := false;
     Fragment.atoms := map Fragment.Lit (list_ascii_of_string "-tmp");
     Fragment.eol := true |}.

Definition re_test : @Regexp Fragment.engine :=
  {| Fragment.bol := true;
     Fragment.atoms := map Fragment.Lit (list_ascii_of_string "test-");
     Fragment.eol := false |}.

End Fixture.

(** * Properties *)

(** ** The filter evaluator *)
Section EvaluatorFacts.
Context {R : regexp_package}.
Implicit Types (name : string) (includeREs excludeNamesREs res : list Regexp).

Lemma matchesInclude_true name res :
  matchesInclude name res = true <-> matches_some name res.
Proof.
  unfold matches_some. induction res as [|re res IH]; simpl.
  - split; [discriminate | intros (re & [] & _)].
  - destruct (MatchString re name) eqn:Hm.
    + split; [intros _; exists re; auto | reflexivity].
    + rewrite IH. split.
      * intros (re' & Hin & Hre'). exists re'. auto.
      * intros (re' & [<- | Hin] & Hre'); [congruence | exists re'; auto].
Qed.

Lemma matchesExclude_negb name res :
  matchesExclude name res = negb (matchesInclude name res).
Proof.
  induction res as [|re res IH]; simpl; [reflexivity|].
  destruct (MatchString re name); [reflexivity | exact IH].
Qed.

Lemma matches_none_not_some name res :
  matches_none name res <-> ~ matches_some name res.
Proof.
  unfold matches_none, matches_some. split.
  - intros Hn (re & Hin & Hre). rewrite (Hn re Hin) in Hre. discriminate.
  - intros Hs re Hin. destruct (MatchString re name) eqn:Hm; [|reflexivity].
    exfalso. apply Hs. exists re. auto.
Qed.

Lemma matchesInclude_false name res :
  matchesInclude name res = false <-> matches_none name res.
Proof.
  rewrite matches_none_not_some, <- matchesInclude_true.
  destruct (matchesInclude name res); split; congruence.
Qed.

Lemma matchesExclude_true name res :
  matchesExclude name res = true <-> matches_none name res.
Proof.
  rewrite matchesExclude_negb, negb_true_iff. apply matchesInclude_false.
Qed.

Lemma matchesExclude_false name res :
  matchesExclude name res = false <-> matches_some name res.
Proof.
  rewrite matchesExclude_negb, negb_false_iff. apply matchesInclude_true.
Qed.

Lemma nonempty_length res : res <> [] -> (0 <? length res)%nat = true.
Proof.
  destruct res; [congruence | reflexivity].
Qed.

(** With include patterns, [ShouldInclude] is "some include pattern matches
    and no exclude pattern does". *)
Lemma ShouldInclude_nonempty name includeREs excludeNamesREs :
  includeREs <> [] ->
  ShouldInclude name includeREs excludeNamesREs =
  matchesInclude name includeREs && matchesExclude name excludeNamesREs.
Proof.
  intros Hne. unfold ShouldInclude. rewrite (nonempty_length _ Hne).
  destruct (matchesInclude name includeREs); reflexivity.
Qed.

(** Without include patterns, it is "no exclude pattern matches". *)
Lemma ShouldInclude_nil name excludeNamesREs :
  ShouldInclude name [] excludeNamesREs = matchesExclude name excludeNamesREs.
Proof.
  unfold ShouldInclude. simpl. destruct excludeNamesREs; reflexivity.
Qed.

Lemma matches_some_Permutation name res res' :
  Permutation res res' -> matches_some name res -> matches_some name res'.
Proof.
  intros Hp (re & Hin & Hre). exists re. split; [|exact Hre].
  eapply Permutation_in; eassumption.
Qed.

Lemma matchesInclude_Permutation name res res' :
  Permutation res res' -> matchesInclude name res = matchesInclude name res'.
Proof.
  intros Hp. apply eq_true_iff_eq. rewrite !matchesInclude_true.
  split; apply matches_some_Permutation; [exact Hp | symmetry; exact Hp].
Qed.

Lemma matches_none_incl name res res' :
  incl res res' -> matches_none name res' -> matches_none name res.
Proof.
  intros Hi Hn re Hin. apply Hn, Hi, Hin.
Qed.

(** C1.  When the include list is not empty and one of its patterns
    matches the name, [ShouldInclude] returns true exactly when no pattern
    of the exclude list matches the name; a matching exclude pattern
    forces false. *)
Theorem ShouldInclude_include_matched name includeREs excludeNamesREs :
  includeREs <> [] ->
  matches_some name includeREs ->
  (ShouldInclude name includeREs excludeNamesREs = true
     <-> matches_none name excludeNamesREs)
  /\ (matches_some name excludeNamesREs ->
      ShouldInclude name includeREs excludeNamesREs = false).
Proof.
  intros Hne Hinc. rewrite (ShouldInclude_nonempty _ _ _ Hne).
  apply matchesInclude_true in Hinc. rewrite Hinc. simpl. split.
  - apply matchesExclude_true.
  - apply matchesExclude_false.
Qed.

(** C2.  When the include list is not empty and none of its patterns
    matches the name, [ShouldInclude] returns false whatever the exclude
    list is. *)
Theorem ShouldInclude_include_unmatched name includeREs :
  includeREs <> [] ->
  matches_none name includeREs ->
  forall excludeNamesREs, ShouldInclude name includeREs excludeNamesREs = false.
Proof.
  intros Hne Hinc excludeNamesREs. rewrite (ShouldInclude_nonempty _ _ _ Hne).
  apply matchesInclude_false in Hinc. rewrite Hinc. reflexivity.
Qed.

(** C3.  With an empty include list and an exclude list that is not
    empty, [ShouldInclude] returns false when a pattern of the exclude
    list matches the name and true otherwise. *)
Theorem ShouldInclude_exclude_only name excludeNamesREs :
  excludeNamesREs <> [] ->
  (matches_some name excludeNamesREs ->
   ShouldInclude name [] excludeNamesREs = false)
  /\ (~ matches_some name excludeNamesREs ->
      ShouldInclude name [] excludeNamesREs = true).
Proof.
  intros _. rewrite ShouldInclude_nil. split.
  - apply matchesExclude_false.
  - intros Hn. apply matchesExclude_true, matches_none_not_some, Hn.
Qed.

(** C4.  With both lists empty [ShouldInclude] returns true for every
    name. *)
Theorem ShouldInclude_default_allow name :
  ShouldInclude name [] [] = true.
Proof.
  reflexivity.
Qed.

(** C7.  Replacing the include list or the exclude list by a permutation
    of it does not change the result of [ShouldInclude]. *)
Theorem ShouldInclude_Permutation name
    includeREs includeREs' excludeNamesREs excludeNamesREs' :
  Permutation includeREs includeREs' ->
  Permutation excludeNamesREs excludeNamesREs' ->
  ShouldInclude name includeREs excludeNamesREs =
  ShouldInclude name includeREs' excludeNamesREs'.
Proof.
  intros Hi He. unfold ShouldInclude.
  rewrite (Permutation_length Hi), (Permutation_length He).
  rewrite (matchesInclude_Permutation _ _ _ Hi).
  rewrite !matchesExclude_negb, (matchesInclude_Permutation _ _ _ He).
  reflexivity.
Qed.

(** C10.  [ShouldInclude] is antitone in the exclude list: when every
    pattern of [E] is also in [E'] (so when [E'] is [E] with patterns
    added), a name that is included under [E'] is included under [E], and
    a name that is not included under [E] is not included under [E']. *)
Theorem ShouldInclude_exclude_antitone name includeREs E E' :
  incl E E' ->
  (ShouldInclude name includeREs E' = true ->
   ShouldInclude name includeREs E = true)
  /\ (ShouldInclude name includeREs E = false ->
      ShouldInclude name includeREs E' = false).
Proof.
  intros Hincl.
  assert (Hmono : matchesExclude name E' = true -> matchesExclude name E = true).
  { rewrite !matchesExclude_true. apply matches_none_incl, Hincl. }
  assert (Hgoal : ShouldInclude name includeREs E' = true ->
                  ShouldInclude name includeREs E = true).
  { destruct includeREs as [|re includeREs].
    - rewrite !ShouldInclude_nil. exact Hmono.
    - rewrite !ShouldInclude_nonempty by discriminate.
      rewrite !andb_true_iff. intros [H1 H2]. auto. }
  split; [exact Hgoal|].
  intros HE. destruct (ShouldInclude name includeREs E') eqn:HE'; [|reflexivity].
  rewrite (Hgoal eq_refl) in HE. discriminate.
Qed.

End EvaluatorFacts.

(** Witness of C1: the bucket [prod-db] of the example. *)
Lemma ShouldInclude_include_matched_witness :
  (ShouldInclude (R := Fragment.engine) "prod-db" [Fixture.re_prod] [Fixture.re_tmp] = true
     <-> matches_none "prod-db" [Fixture.re_tmp])
  /\ (matches_some "prod-db" [Fixture.re_tmp] ->
      ShouldInclude "prod-db" [Fixture.re_prod] [Fixture.re_tmp] = false).
Proof.
  apply (ShouldInclude_include_matched (R := Fragment.engine)).
  - discriminate.
  - exists Fixture.re_prod. split; [left; reflexivity | reflexivity].
Defined.

(** Witness of C2: the bucket [dev-db] of the example. *)
Lemma ShouldInclude_include_unmatched_witness :
  ShouldInclude (R := Fragment.engine) "dev-db" [Fixture.re_prod] [Fixture.re_tmp] = false.
Proof.
  apply (ShouldInclude_include_unmatched (R := Fragment.engine)).
  - discriminate.
  - intros re [<- | []]. reflexivity.
Defined.

(** Witness of C3: the users of the example. *)
Lemma ShouldInclude_exclude_only_witness :
  (matches_some (R := Fragment.engine) "test-user" [Fixture.re_test] ->
   ShouldInclude "test-user" [] [Fixture.re_test] = false)
  /\ (~ matches_some "test-user" [Fixture.re_test] ->
      ShouldInclude "test-user" [] [Fixture.re_test] = true).
Proof.
  apply (ShouldInclude_exclude_only (R := Fragment.engine)).
  discriminate.
Defined.

(** Witness of C7: two include patterns swapped. *)
Lemma ShouldInclude_Permutation_witness :
  ShouldInclude (R := Fragment.engine) "prod-db"
    [Fixture.re_prod; Fixture.re_test] [Fixture.re_tmp] =
  ShouldInclude "prod-db" [Fixture.re_test; Fixture.re_prod] [Fixture.re_tmp].
Proof.
  apply (ShouldInclude_Permutation (R := Fragment.engine)).
  - apply perm_swap.
  - apply Permutation_refl.
Defined.

(** Witness of C10: one exclude pattern added. *)
Lemma ShouldInclude_exclude_antitone_witness :
  (ShouldInclude (R := Fragment.engine) "prod-db-tmp" [Fixture.re_prod]
     [Fixture.re_test; Fixture.re_tmp] = true ->
   ShouldInclude "prod-db-tmp" [Fixture.re_prod] [Fixture.re_test] = true)
  /\ (ShouldInclude "prod-db-tmp" [Fixture.re_prod] [Fixture.re_test] = false ->
      ShouldInclude "prod-db-tmp" [Fixture.re_prod]
        [Fixture.re_test; Fixture.re_tmp] = false).
Proof.
  apply (ShouldInclude_exclude_antitone (R := Fragment.engine)).
  intros re [<- | []]. left. reflexivity.
Defined.

(** The examples of the specification, run on the fragment engine. *)
Example ShouldInclude_storage_example :
  map (fun name => ShouldInclude (R := Fragment.engine) name
                     [Fixture.re_prod] [Fixture.re_tmp])
      ["prod-db"; "prod-db-tmp"; "dev-db"]
  = [true; false; false].
Proof. reflexivity. Qed.

Example ShouldInclude_user_example :
  map (fun name => ShouldInclude (R := Fragment.engine) name [] [Fixture.re_test])
      ["test-user"; "alice"]
  = [false; true].
Proof. reflexivity. Qed.

(** ** The loader of [config/config.go] *)
Section LoaderFacts.
Context {R : regexp_package} {Y : yaml_package}.
Import RawThenCompiled.

Lemma compile_all_app (l1 l2 : list string) :
  compile_all (l1 ++ l2) =
  match compile_all l1 with
  | Err err => Err err
  | Ok res1 =>
      match compile_all l2 with
      | Err err => Err err
      | Ok res2 => Ok (res1 ++ res2)
      end
  end.
Proof.
  induction l1 as [|pattern l1 IH]; simpl.
  - destruct (compile_all l2); reflexivity.
  - destruct (regexp_Compile pattern); [|reflexivity].
    rewrite IH. destruct (compile_all l1); [|reflexivity].
    destruct (compile_all l2); reflexivity.
Qed.

Lemma compile_all_Ok (patterns : list string) :
  (forall pattern, In pattern patterns -> compiles pattern) ->
  exists res, compile_all patterns = Ok res.
Proof.
  induction patterns as [|pattern patterns IH]; intros Hall; simpl.
  - exists []. reflexivity.
  - destruct (Hall pattern (or_introl eq_refl)) as [re ->].
    destruct IH as [res ->]; [intros p Hp; apply Hall; right; exact Hp|].
    exists (re :: res). reflexivity.
Qed.

Lemma compile_all_Err (patterns : list string) (pattern : string) :
  In pattern patterns -> ~ compiles pattern ->
  exists bad err,
    In bad patterns /\ regexp_Compile bad = Err err /\ compile_all patterns = Err err.
Proof.
  induction patterns as [|p patterns IH]; intros Hin Hbad; [destruct Hin|].
  simpl. destruct (regexp_Compile p) as [re|err] eqn:Hp.
  - destruct Hin as [-> | Hin]; [exfalso; apply Hbad; exists re; exact Hp|].
    destruct (IH Hin Hbad) as (bad & err & Hb & Hc & ->).
    exists bad, err. simpl. auto.
  - exists p, err. simpl. auto.
Qed.

Lemma compile_all_Err_inv (patterns : list string) (err : error) :
  compile_all patterns = Err err ->
  exists bad, In bad patterns /\ regexp_Compile bad = Err err.
Proof.
  induction patterns as [|p patterns IH]; simpl; [discriminate|].
  destruct (regexp_Compile p) as [re|e] eqn:Hp.
  - destruct (compile_all patterns) as [res|e]; [discriminate|].
    intros [= <-]. destruct (IH eq_refl) as (bad & Hin & Hb). exists bad. auto.
  - intros [= <-]. exists p. auto.
Qed.

(** The four addresses taken in [GetConfig] are lawful pointers. *)
Lemma addr_S3_IncludeRule_NamesRE_lawful : lawful addr_S3_IncludeRule_NamesRE.
Proof.
  repeat split; intros; try reflexivity.
  destruct configObj as [[[?] ?] ?]. reflexivity.
Qed.

Lemma addr_S3_ExcludeRule_NamesRE_lawful : lawful addr_S3_ExcludeRule_NamesRE.
Proof.
  repeat split; intros; try reflexivity.
  destruct configObj as [[? [?]] ?]. reflexivity.
Qed.

Lemma addr_IAMUsers_IncludeRule_NamesRE_lawful :
  lawful addr_IAMUsers_IncludeRule_NamesRE.
Proof.
  repeat split; intros; try reflexivity.
  destruct configObj as [? [[?] ?]]. reflexivity.
Qed.

Lemma addr_IAMUsers_ExcludeRule_NamesRE_lawful :
  lawful addr_IAMUsers_ExcludeRule_NamesRE.
Proof.
  repeat split; intros; try reflexivity.
  destruct configObj as [? [? [?]]]. reflexivity.
Qed.

(** [appendRegex] on patterns that all compile: the compiled patterns are
    appended, in order, to the slice the pointer points to, and nil is
    returned. *)
Lemma appendRegex_Ok (p : pointer) (patterns : list string) :
  lawful p ->
  forall res configObj,
    compile_all patterns = Ok res ->
    appendRegex p patterns configObj
    = (assign p (deref p configObj ++ res) configObj, None).
Proof.
  intros (Hget & Hset & Hid).
  induction patterns as [|pattern patterns IH]; simpl; intros res configObj Hc.
  - injection Hc as <-. rewrite app_nil_r, Hid. reflexivity.
  - destruct (regexp_Compile pattern) as [re|]; [|discriminate].
    destruct (compile_all patterns) as [res'|]; [|discriminate].
    injection Hc as <-. rewrite (IH res' _ eq_refl).
    rewrite Hget, Hset, <- app_assoc. reflexivity.
Qed.

(** [appendRegex] on a list with a pattern that does not compile returns
    the error of the first such pattern. *)
Lemma appendRegex_Err (p : pointer) (patterns : list string) :
  forall err configObj,
    compile_all patterns = Err err ->
    exists configObj', appendRegex p patterns configObj = (configObj', Some err).
Proof.
  induction patterns as [|pattern patterns IH]; simpl; intros err configObj Hc;
    [discriminate|].
  destruct (regexp_Compile pattern) as [re|e].
  - destruct (compile_all patterns) as [|e]; [discriminate|].
    injection Hc as <-. apply IH. reflexivity.
  - injection Hc as <-. exists configObj. reflexivity.
Qed.

(** The raw slice of a slot after unmarshalling into [RawConfig{}]: the
    entries of the document, none when the slot is left out. *)
Lemma decode_RawConfig_slots (n : yamlDocument) :
  let rawConfig := decode_RawConfig n Raw.RawConfig_zero in
  Raw.NamesRE (Raw.IncludeRule (Raw.S3 rawConfig)) = slot_patterns s3_buckets include n
  /\ Raw.NamesRE (Raw.ExcludeRule (Raw.S3 rawConfig)) = slot_patterns s3_buckets exclude n
  /\ Raw.NamesRE (Raw.IncludeRule (Raw.IAMUsers rawConfig))
     = slot_patterns iam_users include n
  /\ Raw.NamesRE (Raw.ExcludeRule (Raw.IAMUsers rawConfig))
     = slot_patterns iam_users exclude n.
Proof.
  destruct n as [a b]; cbv zeta.
  repeat match goal with
         | x : option _ |- _ => destruct x
         | x : yamlResourceType |- _ => destruct x
         | x : yamlFilterRule |- _ => destruct x
         end; repeat split.
Qed.

(** [GetConfig] on a file that is found, read and parsed: the compiled
    slots and nil, or nil and the error of the first pattern that does not
    compile. *)
Lemma GetConfig_parsed (os : OS) (filePath absolutePath yamlFile : string)
    (n : yamlDocument) :
  filepath_Abs os filePath = Ok absolutePath ->
  ioutil_ReadFile os absolutePath = Ok yamlFile ->
  yaml_parse yamlFile = Ok n ->
  GetConfig os filePath =
  match compile_slots n with
  | Ok configObj => (Some configObj, None)
  | Err err => (None, Some err)
  end.
Proof.
  intros Ha Hr Hp. unfold GetConfig, yaml_Unmarshal. rewrite Ha, Hr, Hp.
  destruct (decode_RawConfig_slots n) as (-> & -> & -> & ->).
  unfold compile_slots, range_associations; cbn [CompiledREs RawREs].
  destruct (compile_all (slot_patterns s3_buckets include n)) as [si|e] eqn:H1.
  2:{ destruct (appendRegex_Err addr_S3_IncludeRule_NamesRE _ _ Config_zero H1)
        as [c ->]. reflexivity. }
  rewrite (appendRegex_Ok _ _ addr_S3_IncludeRule_NamesRE_lawful _ _ H1).
  destruct (compile_all (slot_patterns s3_buckets exclude n)) as [se|e] eqn:H2.
  2:{ match goal with |- context [appendRegex ?p ?l ?c] =>
        destruct (appendRegex_Err p l _ c H2) as [c' ->] end. reflexivity. }
  rewrite (appendRegex_Ok _ _ addr_S3_ExcludeRule_NamesRE_lawful _ _ H2).
  destruct (compile_all (slot_patterns iam_users include n)) as [ui|e] eqn:H3.
  2:{ match goal with |- context [appendRegex ?p ?l ?c] =>
        destruct (appendRegex_Err p l _ c H3) as [c' ->] end. reflexivity. }
  rewrite (appendRegex_Ok _ _ addr_IAMUsers_IncludeRule_NamesRE_lawful _ _ H3).
  destruct (compile_all (slot_patterns iam_users exclude n)) as [ue|e] eqn:H4.
  2:{ match goal with |- context [appendRegex ?p ?l ?c] =>
        destruct (appendRegex_Err p l _ c H4) as [c' ->] end. reflexivity. }
  rewrite (appendRegex_Ok _ _ addr_IAMUsers_ExcludeRule_NamesRE_lawful _ _ H4).
  reflexivity.
Qed.

Lemma compile_slots_Err (n : yamlDocument) (err : error) :
  compile_all (document_patterns n) = Err err -> compile_slots n = Err err.
Proof.
  unfold document_patterns, compile_slots. rewrite !compile_all_app.
  destruct (compile_all (slot_patterns s3_buckets include n)); [|congruence].
  destruct (compile_all (slot_patterns s3_buckets exclude n)); [|congruence].
  destruct (compile_all (slot_patterns iam_users include n)); [|congruence].
  destruct (compile_all (slot_patterns iam_users exclude n)); congruence.
Qed.

Lemma compile_slots_Ok (n : yamlDocument) (res : list Regexp) :
  compile_all (document_patterns n) = Ok res ->
  exists configObj,
    compile_slots n = Ok configObj
    /\ forall c d, compile_all (slot_patterns c d n) = Ok (compiled configObj c d).
Proof.
  unfold document_patterns, compile_slots. rewrite !compile_all_app.
  destruct (compile_all (slot_patterns s3_buckets include n)) eqn:H1; [|discriminate].
  destruct (compile_all (slot_patterns s3_buckets exclude n)) eqn:H2; [|discriminate].
  destruct (compile_all (slot_patterns iam_users include n)) eqn:H3; [|discriminate].
  destruct (compile_all (slot_patterns iam_users exclude n)) eqn:H4; [|discriminate].
  intros _. eexists. split; [reflexivity|].
  intros [] []; assumption.
Qed.

Lemma slot_patterns_document (c : category) (d : direction) (n : yamlDocument)
    (pattern : string) :
  In pattern (slot_patterns c d n) -> In pattern (document_patterns n).
Proof.
  unfold document_patterns. rewrite !in_app_iff. destruct c, d; auto.
Qed.

(** Whatever the file system and the path, [GetConfig] returns a
    configuration and nil, or nil and an error: never both, never
    neither. *)
Lemma range_associations_shape (associations : list association) :
  forall configObj,
    (exists configObj', range_associations associations configObj = (Some configObj', None))
    \/ (exists err, range_associations associations configObj = (None, Some err)).
Proof.
  induction associations as [|a associations IH]; simpl; intros configObj.
  - left. exists configObj. reflexivity.
  - destruct (appendRegex (CompiledREs a) (RawREs a) configObj) as [c [err|]].
    + right. exists err. reflexivity.
    + apply IH.
Qed.

(** X12.  [GetConfig] never returns a configuration together with an
    error, and never nil for both. *)
Lemma GetConfig_shape (os : OS) (filePath : string) :
  (exists configObj, GetConfig os filePath = (Some configObj, None))
  \/ (exists err, GetConfig os filePath = (None, Some err)).
Proof.
  unfold GetConfig.
  destruct (filepath_Abs os filePath) as [absolutePath|err];
    [|right; exists err; reflexivity].
  destruct (ioutil_ReadFile os absolutePath) as [yamlFile|err];
    [|right; exists err; reflexivity].
  destruct (yaml_Unmarshal yamlFile Raw.RawConfig_zero) as [rawConfig [err|]];
    [right; exists err; reflexivity|].
  apply range_associations_shape.
Qed.

(** C5.  When a string in one of the four rule slots of the file does not
    compile as a regular expression, [GetConfig] returns nil for the
    configuration together with an error, which is the error of compiling
    a pattern of the file: the patterns compiled before the failure are
    not returned. *)
Theorem GetConfig_invalid_pattern (os : OS)
    (filePath absolutePath yamlFile : string) (n : yamlDocument)
    (c : category) (d : direction) (pattern : string) :
  filepath_Abs os filePath = Ok absolutePath ->
  ioutil_ReadFile os absolutePath = Ok yamlFile ->
  yaml_parse yamlFile = Ok n ->
  In pattern (slot_patterns c d n) ->
  ~ compiles pattern ->
  exists bad err,
    In bad (document_patterns n)
    /\ regexp_Compile bad = Err err
    /\ GetConfig os filePath = (None, Some err).
Proof.
  intros Ha Hr Hp Hin Hbad.
  destruct (compile_all_Err _ _ (slot_patterns_document _ _ _ _ Hin) Hbad)
    as (bad & err & Hb & Hc & Hall).
  exists bad, err. repeat split; [exact Hb | exact Hc |].
  rewrite (GetConfig_parsed _ _ _ _ _ Ha Hr Hp), (compile_slots_Err _ _ Hall).
  reflexivity.
Qed.

(** C6.  When the file is read and parsed, all its patterns compile, and
    the category, the [include] or [exclude] section, or the [names_regex]
    key of a slot is left out, [GetConfig] returns a configuration and no
    error, and the compiled list of that slot is empty. *)
Theorem GetConfig_omitted_slot (os : OS)
    (filePath absolutePath yamlFile : string) (n : yamlDocument)
    (c : category) (d : direction) :
  filepath_Abs os filePath = Ok absolutePath ->
  ioutil_ReadFile os absolutePath = Ok yamlFile ->
  yaml_parse yamlFile = Ok n ->
  (forall pattern, In pattern (document_patterns n) -> compiles pattern) ->
  omitted c d n ->
  exists configObj,
    GetConfig os filePath = (Some configObj, None)
    /\ compiled configObj c d = [].
Proof.
  intros Ha Hr Hp Hall Hom.
  destruct (compile_all_Ok _ Hall) as [res Hres].
  destruct (compile_slots_Ok _ _ Hres) as (configObj & Hcfg & Hslots).
  exists configObj. split.
  - rewrite (GetConfig_parsed _ _ _ _ _ Ha Hr Hp), Hcfg. reflexivity.
  - specialize (Hslots c d). unfold slot_patterns, rule_patterns in Hslots.
    unfold omitted, slot_items in Hom. rewrite Hom in Hslots. simpl in Hslots.
    injection Hslots as <-. reflexivity.
Qed.

(** C8.  Two calls of [GetConfig] that read the same content of a valid
    file (it parses and all its patterns compile), be it at different
    times or under different paths, both return a configuration, and the
    two configurations decide every name of every category alike. *)
Theorem GetConfig_same_content (os1 os2 : OS)
    (filePath1 filePath2 absolutePath1 absolutePath2 yamlFile : string)
    (n : yamlDocument) :
  filepath_Abs os1 filePath1 = Ok absolutePath1 ->
  ioutil_ReadFile os1 absolutePath1 = Ok yamlFile ->
  filepath_Abs os2 filePath2 = Ok absolutePath2 ->
  ioutil_ReadFile os2 absolutePath2 = Ok yamlFile ->
  yaml_parse yamlFile = Ok n ->
  (forall pattern, In pattern (document_patterns n) -> compiles pattern) ->
  exists configObj1 configObj2,
    GetConfig os1 filePath1 = (Some configObj1, None)
    /\ GetConfig os2 filePath2 = (Some configObj2, None)
    /\ forall c name, decision configObj1 c name = decision configObj2 c name.
Proof.
  intros Ha1 Hr1 Ha2 Hr2 Hp Hall.
  destruct (compile_all_Ok _ Hall) as [res Hres].
  destruct (compile_slots_Ok _ _ Hres) as (configObj & Hcfg & _).
  exists configObj, configObj.
  rewrite (GetConfig_parsed _ _ _ _ _ Ha1 Hr1 Hp).
  rewrite (GetConfig_parsed _ _ _ _ _ Ha2 Hr2 Hp).
  rewrite Hcfg. auto.
Qed.

End LoaderFacts.

(** Witness of C5: [bad.yaml], whose s3 exclude slot holds [*tmp]. *)
Lemma GetConfig_invalid_pattern_witness :
  exists bad err,
    In bad (document_patterns Fixture.bad_document)
    /\ regexp_Compile (regexp_package := Fragment.engine) bad = Err err
    /\ RawThenCompiled.GetConfig (R := Fragment.engine) (Y := Fixture.yaml)
         Fixture.os "bad.yaml" = (None, Some err).
Proof.
  apply (GetConfig_invalid_pattern (R := Fragment.engine) (Y := Fixture.yaml)
           Fixture.os "bad.yaml" "/work/bad.yaml" Fixture.bad_yaml
           Fixture.bad_document s3_buckets exclude "*tmp").
  - reflexivity.
  - reflexivity.
  - reflexivity.
  - left. reflexivity.
  - intros [re Hre]. discriminate Hre.
Defined.

(** Witness of C6: [prod.yaml] has no [include] section for [IAMUsers]. *)
Lemma GetConfig_omitted_slot_witness :
  exists configObj,
    RawThenCompiled.GetConfig (R := Fragment.engine) (Y := Fixture.yaml)
      Fixture.os "prod.yaml" = (Some configObj, None)
    /\ compiled configObj iam_users include = [].
Proof.
  apply (GetConfig_omitted_slot (R := Fragment.engine) (Y := Fixture.yaml)
           Fixture.os "prod.yaml" "/work/prod.yaml" Fixture.prod_yaml
           Fixture.prod_document iam_users include).
  - reflexivity.
  - reflexivity.
  - reflexivity.
  - intros pattern [<- | [<- | [<- | []]]]; eexists; reflexivity.
  - reflexivity.
Defined.

(** Witness of C8: [prod.yaml] and its copy. *)
Lemma GetConfig_same_content_witness :
  exists configObj1 configObj2,
    RawThenCompiled.GetConfig (R := Fragment.engine) (Y := Fixture.yaml)
      Fixture.os "prod.yaml" = (Some configObj1, None)
    /\ RawThenCompiled.GetConfig (R := Fragment.engine) (Y := Fixture.yaml)
         Fixture.os "copy/prod.yaml" = (Some configObj2, None)
    /\ forall c name,
         decision (R := Fragment.engine) configObj1 c name
         = decision configObj2 c name.
Proof.
  apply (GetConfig_same_content (R := Fragment.engine) (Y := Fixture.yaml)
           Fixture.os Fixture.os "prod.yaml" "copy/prod.yaml"
           "/work/prod.yaml" "/work/copy/prod.yaml"
           Fixture.prod_yaml Fixture.prod_document).
  - reflexivity.
  - reflexivity.
  - reflexivity.
  - reflexivity.
  - reflexivity.
  - intros pattern [<- | [<- | [<- | []]]]; eexists; reflexivity.
Defined.

(** On [bad.yaml] the first slot is compiled and stored before the second
    slot fails: [appendRegex] leaves the compiled [^prod-] in [configObj],
    and [GetConfig] returns nil all the same. *)
Example appendRegex_keeps_prefix :
  RawThenCompiled.appendRegex (R := Fragment.engine)
    RawThenCompiled.addr_S3_IncludeRule_NamesRE ["^prod-"; "*tmp"]
    RawThenCompiled.Config_zero
  = (RawThenCompiled.assign RawThenCompiled.addr_S3_IncludeRule_NamesRE
       [Fixture.re_prod] RawThenCompiled.Config_zero,
     Some (syntax_error "missing argument to repetition operator" "*")).
Proof. reflexivity. Qed.

Example GetConfig_bad_yaml :
  RawThenCompiled.GetConfig (R := Fragment.engine) (Y := Fixture.yaml)
    Fixture.os "bad.yaml"
  = (None, Some (syntax_error "missing argument to repetition operator" "*")).
Proof. reflexivity. Qed.

(** The example of the specification, loaded from the file. *)
Example GetConfig_prod_yaml :
  exists configObj,
    RawThenCompiled.GetConfig (R := Fragment.engine) (Y := Fixture.yaml)
      Fixture.os "prod.yaml" = (Some configObj, None)
    /\ map (decision configObj s3_buckets) ["prod-db"; "prod-db-tmp"; "dev-db"]
       = [true; false; false]
    /\ map (decision configObj iam_users) ["test-user"; "alice"] = [false; true].
Proof.
  eexists. split; [reflexivity|]. split; reflexivity.
Qed.

(** ** The two loaders *)
Section TwoLoaders.
Context {R : regexp_package} {Y : yaml_package}.









End TwoLoaders.


(** C9.  The two loaders do not agree on [class.yaml], whose only pattern
    is the character class [[a-z]]: the loader of [config/config.go]
    returns a configuration, in which the bucket [prod-db] is included,
    and the loader that compiles in place returns nil and an error of
    yaml, because [UnmarshalText] reads the text of the pattern as a YAML
    document, where it is a sequence and not a string. *)
Theorem loaders_disagree_on_character_class :
  (exists configObj,
     RawThenCompiled.GetConfig (R := Fragment.engine) (Y := Fixture.yaml)
       Fixture.os "class.yaml" = (Some configObj, None)
     /\ decision configObj s3_buckets "prod-db" = true)
  /\ CompiledInPlace.GetConfig (R := Fragment.engine) (Y := Fixture.yaml)
       Fixture.os "class.yaml"
     = (None, Some (yaml_error "cannot unmarshal !!seq into string"))
  /\ ~ loaders_agree
         (RawThenCompiled.GetConfig (R := Fragment.engine) (Y := Fixture.yaml)
            Fixture.os "class.yaml")
         (CompiledInPlace.GetConfig (R := Fragment.engine) (Y := Fixture.yaml)
            Fixture.os "class.yaml").
Proof.
  split; [|split].
  - eexists. split; reflexivity.
  - reflexivity.
  - intros H. exact H.
Qed.

(** * Further properties *)

(** ** The filter evaluator *)
Section EvaluatorMore.
Context {R : regexp_package}.
Implicit Types (name : string) (includeREs excludeNamesREs res : list Regexp).

(** X1.  Despite its name, [matchesExclude] answers true when no pattern
    of the list matches the name: it is the negation of [matchesInclude]
    on the same list. *)
Theorem matchesExclude_negates_matchesInclude name res :
  matchesExclude name res = negb (matchesInclude name res)
  /\ (matchesExclude name res = true <-> matches_none name res).
Proof.
  split; [apply matchesExclude_negb | apply matchesExclude_true].
Qed.

(** X2.  [ShouldInclude] returns true exactly when the include list is
    empty or has a pattern that matches the name, and no pattern of the
    exclude list matches the name. *)
Theorem ShouldInclude_true_iff name includeREs excludeNamesREs :
  ShouldInclude name includeREs excludeNamesREs = true
  <-> (includeREs = [] \/ matches_some name includeREs)
      /\ matches_none name excludeNamesREs.
Proof.
  destruct includeREs as [|re includeREs].
  - rewrite ShouldInclude_nil, matchesExclude_true. split.
    + intros H. split; [left; reflexivity | exact H].
    + intros [_ H]. exact H.
  - rewrite ShouldInclude_nonempty by discriminate.
    rewrite andb_true_iff, matchesInclude_true, matchesExclude_true. split.
    + intros [Hi He]. split; [right; exact Hi | exact He].
    + intros [[Hnil | Hi] He]; [discriminate | split; assumption].
Qed.

(** X3.  The result of [ShouldInclude] depends only on which patterns are
    in the two lists: lists with the same members, in any order and with
    any repetitions, give the same result. *)
Theorem ShouldInclude_same_members name
    includeREs includeREs' excludeNamesREs excludeNamesREs' :
  (forall re, In re includeREs <-> In re includeREs') ->
  (forall re, In re excludeNamesREs <-> In re excludeNamesREs') ->
  ShouldInclude name includeREs excludeNamesREs =
  ShouldInclude name includeREs' excludeNamesREs'.
Proof.
  intros Hi He. apply eq_true_iff_eq. rewrite !ShouldInclude_true_iff.
  assert (Hnil : includeREs = [] <-> includeREs' = []).
  { destruct includeREs as [|a l], includeREs' as [|a' l']; split;
      try reflexivity; try discriminate; intros _; exfalso.
    - apply (proj2 (Hi a') (or_introl eq_refl)).
    - apply (proj1 (Hi a) (or_introl eq_refl)). }
  assert (Hsome : matches_some name includeREs <-> matches_some name includeREs').
  { split; intros (re & Hin & Hre); exists re; split; try apply Hi; assumption. }
  assert (Hnone : matches_none name excludeNamesREs
                  <-> matches_none name excludeNamesREs').
  { split; intros H re Hin; apply H, He, Hin. }
  rewrite Hnil, Hsome, Hnone. reflexivity.
Qed.

(** X4.  Adding patterns to an include list that is not empty never
    excludes a name that was included. *)
Theorem ShouldInclude_include_grows name includeREs includeREs' excludeNamesREs :
  includeREs <> [] ->
  incl includeREs includeREs' ->
  ShouldInclude name includeREs excludeNamesREs = true ->
  ShouldInclude name includeREs' excludeNamesREs = true.
Proof.
  intros Hne Hincl. rewrite !ShouldInclude_true_iff.
  intros [[Hnil | (re & Hin & Hre)] He]; [contradiction|].
  split; [right; exists re; split; [apply Hincl, Hin | exact Hre] | exact He].
Qed.

(** X5.  The first include pattern can exclude: a name that no exclude
    pattern matches is included while the include list is empty, and is
    not included any more once the include list holds a single pattern
    that does not match it. *)
Theorem ShouldInclude_first_include_pattern name (re : Regexp) excludeNamesREs :
  MatchString re name = false ->
  matches_none name excludeNamesREs ->
  ShouldInclude name [] excludeNamesREs = true
  /\ ShouldInclude name [re] excludeNamesREs = false.
Proof.
  intros Hre He. split.
  - apply ShouldInclude_true_iff. split; [left; reflexivity | exact He].
  - rewrite ShouldInclude_nonempty by discriminate. simpl. rewrite Hre. reflexivity.
Qed.

End EvaluatorMore.

Lemma ShouldInclude_same_members_witness :
  ShouldInclude (R := Fragment.engine) "prod-db"
    [Fixture.re_prod; Fixture.re_prod] [Fixture.re_tmp; Fixture.re_test] =
  ShouldInclude "prod-db" [Fixture.re_prod] [Fixture.re_test; Fixture.re_tmp].
Proof.
  apply (ShouldInclude_same_members (R := Fragment.engine)).
  - intros re. simpl. tauto.
  - intros re. simpl. tauto.
Defined.

Lemma ShouldInclude_include_grows_witness :
  ShouldInclude (R := Fragment.engine) "prod-db"
    [Fixture.re_test; Fixture.re_prod] [Fixture.re_tmp] = true.
Proof.
  apply (ShouldInclude_include_grows (R := Fragment.engine)
           "prod-db" [Fixture.re_prod]).
  - discriminate.
  - intros re [<- | []]. right. left. reflexivity.
  - reflexivity.
Defined.

Lemma ShouldInclude_first_include_pattern_witness :
  ShouldInclude (R := Fragment.engine) "dev-db" [] [Fixture.re_tmp] = true
  /\ ShouldInclude "dev-db" [Fixture.re_prod] [Fixture.re_tmp] = false.
Proof.
  apply (ShouldInclude_first_include_pattern (R := Fragment.engine)).
  - reflexivity.
  - intros re [<- | []]. reflexivity.
Defined.

(** ** The loaders that compile after unmarshalling *)
Section LoaderMore.
Context {R : regexp_package} {Y : yaml_package}.
Import RawThenCompiled.

Lemma compile_all_Forall2 (patterns : list string) (res : list Regexp) :
  compile_all patterns = Ok res <-> Forall2 compiled_from patterns res.
Proof.
  revert res. induction patterns as [|pattern patterns IH]; intros res; simpl.
  - split.
    + intros [= <-]. constructor.
    + intros H. inversion H. reflexivity.
  - split.
    + destruct (regexp_Compile pattern) as [re|] eqn:Hp; [|discriminate].
      destruct (compile_all patterns) as [res'|]; [|discriminate].
      intros [= <-]. constructor; [exact Hp | apply IH; reflexivity].
    + intros H. inversion H as [|p re ps res' Hp Hrest]; subst.
      unfold compiled_from in Hp. rewrite Hp.
      apply IH in Hrest. rewrite Hrest. reflexivity.
Qed.

Lemma compile_all_Ok_inv (patterns : list string) (res : list Regexp) :
  compile_all patterns = Ok res ->
  forall pattern, In pattern patterns -> compiles pattern.
Proof.
  intros H pattern Hin.
  destruct (regexp_Compile pattern) as [re|err] eqn:Hp; [exists re; exact Hp|].
  assert (Hbad : ~ compiles pattern) by (intros [re Hre]; congruence).
  destruct (compile_all_Err _ _ Hin Hbad) as (bad & e & _ & _ & He). congruence.
Qed.

Lemma compile_all_first_error (l1 l2 : list string) (bad : string)
    (res1 : list Regexp) (err : error) :
  compile_all l1 = Ok res1 ->
  regexp_Compile bad = Err err ->
  compile_all (l1 ++ bad :: l2) = Err err.
Proof.
  intros H1 Hb. rewrite compile_all_app, H1. simpl. rewrite Hb. reflexivity.
Qed.

Lemma address_lawful (c : category) (d : direction) : lawful (address c d).
Proof.
  destruct c, d;
    [ apply addr_S3_IncludeRule_NamesRE_lawful
    | apply addr_S3_ExcludeRule_NamesRE_lawful
    | apply addr_IAMUsers_IncludeRule_NamesRE_lawful
    | apply addr_IAMUsers_ExcludeRule_NamesRE_lawful ].
Qed.

Lemma deref_address (c : category) (d : direction) (configObj : Config) :
  deref (address c d) configObj = compiled configObj c d.
Proof.
  destruct c, d; reflexivity.
Qed.

Lemma compiled_assign_other (c c' : category) (d d' : direction)
    (v : compiledNamesRE) (configObj : Config) :
  (c', d') <> (c, d) ->
  compiled (assign (address c d) v configObj) c' d' = compiled configObj c' d'.
Proof.
  destruct c, d, c', d'; intros Hne; try reflexivity; exfalso; apply Hne; reflexivity.
Qed.

(** [appendRegex] on a list whose first pattern that does not compile is
    [bad]: what it leaves behind the pointer and what it returns. *)
Lemma appendRegex_prefix (p : pointer) (l1 l2 : list string) (bad : string)
    (res1 : list Regexp) (err : error) :
  lawful p ->
  compile_all l1 = Ok res1 ->
  regexp_Compile bad = Err err ->
  forall configObj,
    appendRegex p (l1 ++ bad :: l2) configObj
    = (assign p (deref p configObj ++ res1) configObj, Some err).
Proof.
  intros (Hget & Hset & Hid) H1 Hb. revert res1 H1.
  induction l1 as [|pattern l1 IH]; simpl; intros res1 H1 configObj.
  - injection H1 as <-. rewrite Hb, app_nil_r, Hid. reflexivity.
  - destruct (regexp_Compile pattern) as [re|]; [|discriminate].
    destruct (compile_all l1) as [res'|]; [|discriminate].
    injection H1 as <-. rewrite (IH res' eq_refl).
    rewrite Hget, Hset, <- app_assoc. reflexivity.
Qed.

(** X6.  When all the patterns compile, [appendRegex] returns nil and has
    appended the compiled patterns, in order, behind what the slot
    already held; the three other slots of [configObj] are as before. *)
Theorem appendRegex_appends (c : category) (d : direction)
    (patterns : list string) (res : list Regexp) (configObj : Config) :
  compile_all patterns = Ok res ->
  exists configObj',
    appendRegex (address c d) patterns configObj = (configObj', None)
    /\ compiled configObj' c d = compiled configObj c d ++ res
    /\ forall c' d', (c', d') <> (c, d) ->
         compiled configObj' c' d' = compiled configObj c' d'.
Proof.
  intros H. eexists. split; [|split].
  - apply (appendRegex_Ok _ _ (address_lawful c d) _ _ H).
  - rewrite <- !deref_address. apply (address_lawful c d).
  - intros c' d' Hne. apply compiled_assign_other, Hne.
Qed.

(** X7.  When [bad] is the first pattern of the list that does not
    compile, [appendRegex] returns the error of compiling [bad]; the
    patterns before [bad] have been compiled and appended to the slot,
    none after it has, and the three other slots are as before. *)
Theorem appendRegex_stops_at_first_error (c : category) (d : direction)
    (l1 l2 : list string) (bad : string) (res1 : list Regexp) (err : error)
    (configObj : Config) :
  compile_all l1 = Ok res1 ->
  regexp_Compile bad = Err err ->
  exists configObj',
    appendRegex (address c d) (l1 ++ bad :: l2) configObj = (configObj', Some err)
    /\ compiled configObj' c d = compiled configObj c d ++ res1
    /\ forall c' d', (c', d') <> (c, d) ->
         compiled configObj' c' d' = compiled configObj c' d'.
Proof.
  intros H1 Hb. eexists. split; [|split].
  - apply (appendRegex_prefix _ _ _ _ _ _ (address_lawful c d) H1 Hb).
  - rewrite <- !deref_address. apply (address_lawful c d).
  - intros c' d' Hne. apply compiled_assign_other, Hne.
Qed.

(** X9.  On a file that is found, read and parsed, [GetConfig] returns a
    configuration exactly when every pattern of the file compiles. *)
Theorem GetConfig_succeeds_iff (os : OS)
    (filePath absolutePath yamlFile : string) (n : yamlDocument) :
  filepath_Abs os filePath = Ok absolutePath ->
  ioutil_ReadFile os absolutePath = Ok yamlFile ->
  yaml_parse yamlFile = Ok n ->
  (exists configObj, GetConfig os filePath = (Some configObj, None))
  <-> (forall pattern, In pattern (document_patterns n) -> compiles pattern).
Proof.
  intros Ha Hr Hp. rewrite (GetConfig_parsed _ _ _ _ _ Ha Hr Hp). split.
  - intros [configObj H].
    destruct (compile_all (document_patterns n)) as [res|err] eqn:Hall.
    + apply (compile_all_Ok_inv _ _ Hall).
    + rewrite (compile_slots_Err _ _ Hall) in H. discriminate.
  - intros Hall. destruct (compile_all_Ok _ Hall) as [res Hres].
    destruct (compile_slots_Ok _ _ Hres) as (configObj & -> & _).
    exists configObj. reflexivity.
Qed.

(** X10.  In the configuration that [GetConfig] returns, every slot holds
    as many compiled patterns as the file lists for it, and the k-th of
    them is what the k-th pattern of that slot compiles to. *)
Theorem GetConfig_slots_in_order (os : OS)
    (filePath absolutePath yamlFile : string) (n : yamlDocument)
    (configObj : Config) :
  filepath_Abs os filePath = Ok absolutePath ->
  ioutil_ReadFile os absolutePath = Ok yamlFile ->
  yaml_parse yamlFile = Ok n ->
  GetConfig os filePath = (Some configObj, None) ->
  forall c d, Forall2 compiled_from (slot_patterns c d n) (compiled configObj c d).
Proof.
  intros Ha Hr Hp. rewrite (GetConfig_parsed _ _ _ _ _ Ha Hr Hp). intros H c d.
  destruct (compile_all (document_patterns n)) as [res|err] eqn:Hall.
  - destruct (compile_slots_Ok _ _ Hall) as (configObj' & Hcfg & Hslots).
    rewrite Hcfg in H. injection H as <-.
    apply compile_all_Forall2, Hslots.
  - rewrite (compile_slots_Err _ _ Hall) in H. discriminate.
Qed.

(** X11.  The error that [GetConfig] returns for a file with patterns that
    do not compile is the error of the first of them, in the order s3
    include, s3 exclude, IAMUsers include, IAMUsers exclude and, within a
    slot, in the order of the file. *)
Theorem GetConfig_first_error (os : OS)
    (filePath absolutePath yamlFile : string) (n : yamlDocument)
    (l1 l2 : list string) (bad : string) (err : error) :
  filepath_Abs os filePath = Ok absolutePath ->
  ioutil_ReadFile os absolutePath = Ok yamlFile ->
  yaml_parse yamlFile = Ok n ->
  document_patterns n = l1 ++ bad :: l2 ->
  (forall pattern, In pattern l1 -> compiles pattern) ->
  regexp_Compile bad = Err err ->
  GetConfig os filePath = (None, Some err).
Proof.
  intros Ha Hr Hp Hsplit Hl1 Hb.
  destruct (compile_all_Ok _ Hl1) as [res1 H1].
  rewrite (GetConfig_parsed _ _ _ _ _ Ha Hr Hp).
  rewrite (compile_slots_Err n err); [reflexivity|].
  rewrite Hsplit. apply (compile_all_first_error _ _ _ _ _ H1 Hb).
Qed.

(** X13.  The loader that loops over the associations and the loader with
    the four calls written out return the same pair for every file system
    and every path. *)
Theorem GetConfig_loop_is_unrolled (os : OS) (filePath : string) :
  GetConfig os filePath = Unrolled.GetConfig os filePath.
Proof.
  unfold GetConfig, Unrolled.GetConfig.
  destruct (filepath_Abs os filePath) as [absolutePath|]; [|reflexivity].
  destruct (ioutil_ReadFile os absolutePath) as [yamlFile|]; [|reflexivity].
  destruct (yaml_Unmarshal yamlFile Raw.RawConfig_zero) as [rawConfig [err|]];
    [reflexivity|].
  cbn [range_associations CompiledREs RawREs].
  repeat match goal with
         | |- context [appendRegex ?p ?l ?c] =>
             destruct (appendRegex p l c) as [? [?|]]; [reflexivity|]
         end.
  reflexivity.
Qed.

End LoaderMore.

(** ** The loader that compiles while unmarshalling *)
Section InPlaceMore.
Context {R : regexp_package} {Y : yaml_package}.

Lemma Forall2_In_l {A B : Type} (P : A -> B -> Prop) (l : list A) (l' : list B) :
  Forall2 P l l' -> forall x, In x l -> exists y, P x y.
Proof.
  induction 1 as [|a b l l' Hab _ IH]; intros x Hin; [destruct Hin|].
  destruct Hin as [<- | Hin]; [exists b; exact Hab | apply IH, Hin].
Qed.

Lemma UnmarshalText_Ok (expression expression' : CompiledInPlace.Expression)
    (data : string) :
  CompiledInPlace.UnmarshalText expression data = (expression', None) ->
  unmarshalled_from data (CompiledInPlace.RE expression').
Proof.
  unfold CompiledInPlace.UnmarshalText, unmarshalled_from.
  destruct (yaml_Unmarshal_string data) as [pattern|]; [|discriminate].
  destruct (regexp_Compile pattern) as [re|] eqn:Hc; [|discriminate].
  intros [= <-]. exists pattern. auto.
Qed.

Lemma UnmarshalText_Err (expression expression' : CompiledInPlace.Expression)
    (data : string) (err : error) :
  CompiledInPlace.UnmarshalText expression data = (expression', Some err) ->
  expression' = expression /\ forall re, ~ unmarshalled_from data re.
Proof.
  unfold CompiledInPlace.UnmarshalText, unmarshalled_from.
  destruct (yaml_Unmarshal_string data) as [pattern|e] eqn:Hy.
  - destruct (regexp_Compile pattern) as [re|e] eqn:Hc; [discriminate|].
    intros [= <- _]. split; [reflexivity|].
    intros re (pattern' & [= <-] & Hc'). congruence.
  - intros [= <- _]. split; [reflexivity|].
    intros re (pattern' & Hy' & _). discriminate.
Qed.

Lemma decode_Expressions_Ok (items : list string) :
  forall es,
    CompiledInPlace.decode_Expressions items = Ok es ->
    Forall2 unmarshalled_from items (map CompiledInPlace.RE es).
Proof.
  induction items as [|item items IH]; simpl; intros es.
  - intros [= <-]. constructor.
  - destruct (CompiledInPlace.UnmarshalText CompiledInPlace.Expression_zero item)
      as [e [err|]] eqn:Hu; [discriminate|].
    destruct (CompiledInPlace.decode_Expressions items) as [es'|]; [|discriminate].
    intros [= <-]. simpl. constructor.
    + apply (UnmarshalText_Ok _ _ _ Hu).
    + apply IH. reflexivity.
Qed.

Lemma decode_Expressions_Err (items : list string) (err : error) :
  CompiledInPlace.decode_Expressions items = Err err ->
  exists item, In item items /\ forall re, ~ unmarshalled_from item re.
Proof.
  revert err. induction items as [|item items IH]; intros err; simpl; [discriminate|].
  destruct (CompiledInPlace.UnmarshalText CompiledInPlace.Expression_zero item)
    as [e [err'|]] eqn:Hu.
  - intros _. exists item. split; [left; reflexivity|].
    apply (UnmarshalText_Err _ _ _ _ Hu).
  - destruct (CompiledInPlace.decode_Expressions items) as [es'|err']; [discriminate|].
    intros _. destruct (IH err' eq_refl) as (bad & Hin & Hbad). exists bad. auto.
Qed.

Lemma decode_FilterRule_Ok (f : option yamlFilterRule)
    (rule : CompiledInPlace.FilterRule) :
  CompiledInPlace.decode_FilterRule f CompiledInPlace.FilterRule_zero = Ok rule ->
  Forall2 unmarshalled_from (rule_patterns f) (CompiledInPlace.regexps rule).
Proof.
  destruct f as [[[items|]]|]; unfold rule_patterns; simpl;
    try (intros [= <-]; constructor).
  destruct (CompiledInPlace.decode_Expressions items) as [es|] eqn:He; [|discriminate].
  intros [= <-]. apply decode_Expressions_Ok, He.
Qed.

Lemma decode_FilterRule_Err (f : option yamlFilterRule) (err : error) :
  CompiledInPlace.decode_FilterRule f CompiledInPlace.FilterRule_zero = Err err ->
  exists item, In item (rule_patterns f) /\ forall re, ~ unmarshalled_from item re.
Proof.
  destruct f as [[[items|]]|]; unfold rule_patterns; simpl; try discriminate.
  destruct (CompiledInPlace.decode_Expressions items) as [es|e] eqn:He; [discriminate|].
  intros _. apply (decode_Expressions_Err _ _ He).
Qed.

Lemma decode_ResourceType_Ok (r : option yamlResourceType)
    (res : CompiledInPlace.ResourceType) :
  CompiledInPlace.decode_ResourceType r CompiledInPlace.ResourceType_zero = Ok res ->
  Forall2 unmarshalled_from (rule_patterns (direction_key include r))
    (CompiledInPlace.regexps (CompiledInPlace.IncludeRule res))
  /\ Forall2 unmarshalled_from (rule_patterns (direction_key exclude r))
       (CompiledInPlace.regexps (CompiledInPlace.ExcludeRule res)).
Proof.
  destruct r as [[inc exc]|]; simpl.
  - destruct (CompiledInPlace.decode_FilterRule inc _) as [i|] eqn:Hi; [|discriminate].
    destruct (CompiledInPlace.decode_FilterRule exc _) as [e|] eqn:He; [|discriminate].
    intros [= <-]. simpl. split; apply decode_FilterRule_Ok; assumption.
  - intros [= <-]. split; constructor.
Qed.

Lemma decode_ResourceType_Err (r : option yamlResourceType) (err : error) :
  CompiledInPlace.decode_ResourceType r CompiledInPlace.ResourceType_zero = Err err ->
  exists item,
    (In item (rule_patterns (direction_key include r))
     \/ In item (rule_patterns (direction_key exclude r)))
    /\ forall re, ~ unmarshalled_from item re.
Proof.
  destruct r as [[inc exc]|]; simpl; [|discriminate].
  destruct (CompiledInPlace.decode_FilterRule inc _) as [i|e] eqn:Hi.
  - destruct (CompiledInPlace.decode_FilterRule exc _) as [x|e] eqn:He; [discriminate|].
    intros _. destruct (decode_FilterRule_Err _ _ He) as (item & Hin & Hbad).
    exists item. auto.
  - intros _. destruct (decode_FilterRule_Err _ _ Hi) as (item & Hin & Hbad).
    exists item. auto.
Qed.

Lemma decode_Config_Ok (n : yamlDocument) (configObj : CompiledInPlace.Config) :
  CompiledInPlace.decode_Config n CompiledInPlace.Config_zero = Ok configObj ->
  forall c d,
    Forall2 unmarshalled_from (slot_patterns c d n) (compiled_in_place configObj c d).
Proof.
  unfold CompiledInPlace.decode_Config. simpl.
  destruct (CompiledInPlace.decode_ResourceType (key_s3 n) _) as [r1|] eqn:H1;
    [|discriminate].
  destruct (CompiledInPlace.decode_ResourceType (key_IAMUsers n) _) as [r2|] eqn:H2;
    [|discriminate].
  intros [= <-]. apply decode_ResourceType_Ok in H1, H2.
  intros [] []; unfold slot_patterns, compiled_in_place; simpl; tauto.
Qed.

Lemma decode_Config_Err (n : yamlDocument) (err : error) :
  CompiledInPlace.decode_Config n CompiledInPlace.Config_zero = Err err ->
  exists item,
    In item (document_patterns n) /\ forall re, ~ unmarshalled_from item re.
Proof.
  unfold CompiledInPlace.decode_Config, document_patterns, slot_patterns. simpl.
  destruct (CompiledInPlace.decode_ResourceType (key_s3 n) _) as [r1|e] eqn:H1.
  - destruct (CompiledInPlace.decode_ResourceType (key_IAMUsers n) _) as [r2|e] eqn:H2;
      [discriminate|].
    intros _. destruct (decode_ResourceType_Err _ _ H2) as (item & Hin & Hbad).
    exists item. split; [|exact Hbad]. rewrite !in_app_iff. tauto.
  - intros _. destruct (decode_ResourceType_Err _ _ H1) as (item & Hin & Hbad).
    exists item. split; [|exact Hbad]. rewrite !in_app_iff. tauto.
Qed.

Lemma GetConfig_in_place_decoded (os : OS)
    (filePath absolutePath yamlFile : string) (n : yamlDocument) :
  filepath_Abs os filePath = Ok absolutePath ->
  ioutil_ReadFile os absolutePath = Ok yamlFile ->
  yaml_parse yamlFile = Ok n ->
  CompiledInPlace.GetConfig os filePath =
  match CompiledInPlace.decode_Config n CompiledInPlace.Config_zero with
  | Ok configObj => (Some configObj, None)
  | Err err => (None, Some err)
  end.
Proof.
  intros Ha Hr Hp.
  unfold CompiledInPlace.GetConfig, CompiledInPlace.yaml_Unmarshal.
  rewrite Ha, Hr, Hp.
  destruct (CompiledInPlace.decode_Config n CompiledInPlace.Config_zero); reflexivity.
Qed.


(** X15.  On a file that is found, read and parsed, the loader that
    compiles in place returns a configuration exactly when the text of
    every entry is read by yaml as a string and that string compiles. *)
Theorem GetConfig_in_place_succeeds_iff (os : OS)
    (filePath absolutePath yamlFile : string) (n : yamlDocument) :
  filepath_Abs os filePath = Ok absolutePath ->
  ioutil_ReadFile os absolutePath = Ok yamlFile ->
  yaml_parse yamlFile = Ok n ->
  (exists configObj, CompiledInPlace.GetConfig os filePath = (Some configObj, None))
  <-> (forall item, In item (document_patterns n) ->
       exists re, unmarshalled_from item re).
Proof.
  intros Ha Hr Hp. rewrite (GetConfig_in_place_decoded _ _ _ _ _ Ha Hr Hp).
  destruct (CompiledInPlace.decode_Config n CompiledInPlace.Config_zero)
    as [configObj|err] eqn:Hd.
  - split; [|intros _; exists configObj; reflexivity].
    intros _ item. unfold document_patterns. rewrite !in_app_iff.
    pose proof (decode_Config_Ok _ _ Hd) as Hslots.
    intros [H | [H | [H | H]]]; eapply Forall2_In_l; try exact H; apply Hslots.
  - split; [intros [configObj H]; discriminate|].
    intros Hall. destruct (decode_Config_Err _ _ Hd) as (item & Hin & Hbad).
    destruct (Hall item Hin) as [re Hre]. exfalso. apply (Hbad re Hre).
Qed.

(** X16.  Whatever the file system and the path, the loader that compiles
    in place returns a configuration and nil, or nil and an error. *)
Theorem GetConfig_in_place_shape (os : OS) (filePath : string) :
  (exists configObj, CompiledInPlace.GetConfig os filePath = (Some configObj, None))
  \/ (exists err, CompiledInPlace.GetConfig os filePath = (None, Some err)).
Proof.
  unfold CompiledInPlace.GetConfig.
  destruct (filepath_Abs os filePath) as [absolutePath|err];
    [|right; exists err; reflexivity].
  destruct (ioutil_ReadFile os absolutePath) as [yamlFile|err];
    [|right; exists err; reflexivity].
  destruct (CompiledInPlace.yaml_Unmarshal yamlFile CompiledInPlace.Config_zero)
    as [configObj [err|]].
  - right. exists err. reflexivity.
  - left. exists configObj. reflexivity.
Qed.

(** X8.  An error of resolving the path, of reading the file or of parsing
    it is returned as it is, with a nil configuration, by each of the
    three loaders. *)
Theorem GetConfig_hands_on_errors (os : OS) (filePath : string) (err : error) :
  filepath_Abs os filePath = Err err
  \/ (exists absolutePath,
        filepath_Abs os filePath = Ok absolutePath
        /\ ioutil_ReadFile os absolutePath = Err err)
  \/ (exists absolutePath yamlFile,
        filepath_Abs os filePath = Ok absolutePath
        /\ ioutil_ReadFile os absolutePath = Ok yamlFile
        /\ yaml_parse yamlFile = Err err) ->
  RawThenCompiled.GetConfig os filePath = (None, Some err)
  /\ Unrolled.GetConfig os filePath = (None, Some err)
  /\ CompiledInPlace.GetConfig os filePath = (None, Some err).
Proof.
  unfold RawThenCompiled.GetConfig, Unrolled.GetConfig, CompiledInPlace.GetConfig,
    RawThenCompiled.yaml_Unmarshal, CompiledInPlace.yaml_Unmarshal.
  intros [Ha | [(absolutePath & Ha & Hr) | (absolutePath & yamlFile & Ha & Hr & Hp)]].
  - rewrite Ha. auto.
  - rewrite Ha, Hr. auto.
  - rewrite Ha, Hr, Hp. auto.
Qed.

(** X17.  When every pattern of a file compiles but yaml does not read the
    text of one of them as a string, the loader of [config/config.go]
    returns a configuration and the loader that compiles in place returns
    nil and an error. *)
Theorem loaders_disagree_when_not_reread (os : OS)
    (filePath absolutePath yamlFile : string) (n : yamlDocument)
    (item : string) (err : error) :
  filepath_Abs os filePath = Ok absolutePath ->
  ioutil_ReadFile os absolutePath = Ok yamlFile ->
  yaml_parse yamlFile = Ok n ->
  (forall pattern, In pattern (document_patterns n) -> compiles pattern) ->
  In item (document_patterns n) ->
  yaml_Unmarshal_string item = Err err ->
  (exists configObj, RawThenCompiled.GetConfig os filePath = (Some configObj, None))
  /\ (exists err', CompiledInPlace.GetConfig os filePath = (None, Some err')).
Proof.
  intros Ha Hr Hp Hall Hin Hy. split.
  - rewrite (GetConfig_parsed _ _ _ _ _ Ha Hr Hp).
    destruct (compile_all_Ok _ Hall) as [res Hres].
    destruct (compile_slots_Ok _ _ Hres) as (configObj & -> & _).
    exists configObj. reflexivity.
  - rewrite (GetConfig_in_place_decoded _ _ _ _ _ Ha Hr Hp).
    destruct (CompiledInPlace.decode_Config n CompiledInPlace.Config_zero)
      as [configObj|err'] eqn:Hd; [|exists err'; reflexivity].
    exfalso. pose proof (decode_Config_Ok _ _ Hd) as Hslots.
    assert (Hre : exists re, unmarshalled_from item re).
    { revert Hin. unfold document_patterns. rewrite !in_app_iff.
      intros [H | [H | [H | H]]]; eapply Forall2_In_l; try exact H; apply Hslots. }
    destruct Hre as (re & pattern & Hy' & _). congruence.
Qed.

End InPlaceMore.

Lemma appendRegex_appends_witness :
  exists configObj',
    RawThenCompiled.appendRegex (R := Fragment.engine)
      (address s3_buckets exclude) ["-tmp$"]
      (RawThenCompiled.assign (address s3_buckets exclude) [Fixture.re_test]
         RawThenCompiled.Config_zero)
    = (configObj', None)
    /\ compiled configObj' s3_buckets exclude
       = compiled (RawThenCompiled.assign (address s3_buckets exclude)
                     [Fixture.re_test] RawThenCompiled.Config_zero)
           s3_buckets exclude ++ [Fixture.re_tmp]
    /\ forall c' d', (c', d') <> (s3_buckets, exclude) ->
         compiled configObj' c' d'
         = compiled (RawThenCompiled.assign (address s3_buckets exclude)
                       [Fixture.re_test] RawThenCompiled.Config_zero) c' d'.
Proof.
  apply (appendRegex_appends (R := Fragment.engine)).
  reflexivity.
Defined.

Lemma appendRegex_stops_at_first_error_witness :
  exists configObj',
    RawThenCompiled.appendRegex (R := Fragment.engine)
      (address s3_buckets include) (["^prod-"] ++ "*tmp" :: ["^test-"])
      RawThenCompiled.Config_zero
    = (configObj',
       Some (syntax_error "missing argument to repetition operator" "*"))
    /\ compiled configObj' s3_buckets include
       = compiled RawThenCompiled.Config_zero s3_buckets include ++ [Fixture.re_prod]
    /\ forall c' d', (c', d') <> (s3_buckets, include) ->
         compiled configObj' c' d' = compiled RawThenCompiled.Config_zero c' d'.
Proof.
  apply (appendRegex_stops_at_first_error (R := Fragment.engine)).
  - reflexivity.
  - reflexivity.
Defined.

Lemma GetConfig_hands_on_errors_witness :
  RawThenCompiled.GetConfig (R := Fragment.engine) (Y := Fixture.yaml)
    Fixture.os "missing.yaml"
  = (None, Some (os_error "no such file or directory"))
  /\ Unrolled.GetConfig (R := Fragment.engine) (Y := Fixture.yaml)
       Fixture.os "missing.yaml"
     = (None, Some (os_error "no such file or directory"))
  /\ CompiledInPlace.GetConfig (R := Fragment.engine) (Y := Fixture.yaml)
       Fixture.os "missing.yaml"
     = (None, Some (os_error "no such file or directory")).
Proof.
  apply (GetConfig_hands_on_errors (R := Fragment.engine) (Y := Fixture.yaml)).
  right. left. exists "/work/missing.yaml". split; reflexivity.
Defined.

Lemma GetConfig_succeeds_iff_witness :
  (exists configObj,
     RawThenCompiled.GetConfig (R := Fragment.engine) (Y := Fixture.yaml)
       Fixture.os "bad.yaml" = (Some configObj, None))
  <-> (forall pattern,
         In pattern (document_patterns Fixture.bad_document) ->
         compiles (R := Fragment.engine) pattern).
Proof.
  apply (GetConfig_succeeds_iff (R := Fragment.engine) (Y := Fixture.yaml)
           Fixture.os "bad.yaml" "/work/bad.yaml" Fixture.bad_yaml); reflexivity.
Defined.

Lemma GetConfig_slots_in_order_witness :
    Forall2 (compiled_from (R := Fragment.engine))
      (slot_patterns s3_buckets exclude Fixture.prod_document)
      (compiled
         {| RawThenCompiled.S3 :=
              {| RawThenCompiled.IncludeRule :=
                   {| RawThenCompiled.NamesRE := [Fixture.re_prod] |};
                 RawThenCompiled.ExcludeRule :=
                   {| RawThenCompiled.NamesRE := [Fixture.re_tmp] |} |};
            RawThenCompiled.IAMUsers :=
              {| RawThenCompiled.IncludeRule := {| RawThenCompiled.NamesRE := [] |};
                 RawThenCompiled.ExcludeRule :=
                   {| RawThenCompiled.NamesRE := [Fixture.re_test] |} |} |}
         s3_buckets exclude).
Proof.
  apply (GetConfig_slots_in_order (R := Fragment.engine) (Y := Fixture.yaml)
           Fixture.os "prod.yaml" "/work/prod.yaml" Fixture.prod_yaml); reflexivity.
Defined.

Lemma GetConfig_first_error_witness :
  RawThenCompiled.GetConfig (R := Fragment.engine) (Y := Fixture.yaml)
    Fixture.os "bad.yaml"
  = (None, Some (syntax_error "missing argument to repetition operator" "*")).
Proof.
  apply (GetConfig_first_error (R := Fragment.engine) (Y := Fixture.yaml)
           Fixture.os "bad.yaml" "/work/bad.yaml" Fixture.bad_yaml
           Fixture.bad_document ["^prod-"] [] "*tmp").
  - reflexivity.
  - reflexivity.
  - reflexivity.
  - reflexivity.
  - intros pattern [<- | []]. eexists. reflexivity.
  - reflexivity.
Defined.


Lemma GetConfig_in_place_succeeds_iff_witness :
  (exists configObj,
     CompiledInPlace.GetConfig (R := Fragment.engine) (Y := Fixture.yaml)
       Fixture.os "class.yaml" = (Some configObj, None))
  <-> (forall item,
         In item (document_patterns Fixture.class_document) ->
         exists re, unmarshalled_from (R := Fragment.engine) (Y := Fixture.yaml) item re).
Proof.
  apply (GetConfig_in_place_succeeds_iff (R := Fragment.engine) (Y := Fixture.yaml)
           Fixture.os "class.yaml" "/work/class.yaml" Fixture.class_yaml); reflexivity.
Defined.

Lemma loaders_disagree_when_not_reread_witness :
  (exists configObj,
     RawThenCompiled.GetConfig (R := Fragment.engine) (Y := Fixture.yaml)
       Fixture.os "class.yaml" = (Some configObj, None))
  /\ (exists err',
        CompiledInPlace.GetConfig (R := Fragment.engine) (Y := Fixture.yaml)
          Fixture.os "class.yaml" = (None, Some err')).
Proof.
  apply (loaders_disagree_when_not_reread (R := Fragment.engine) (Y := Fixture.yaml)
           Fixture.os "class.yaml" "/work/class.yaml" Fixture.class_yaml
           Fixture.class_document "[a-z]"
           (yaml_error "cannot unmarshal !!seq into string")).
  - reflexivity.
  - reflexivity.
  - reflexivity.
  - intros pattern [<- | []]. eexists. reflexivity.
  - left. reflexivity.
  - reflexivity.
Defined.
